(** * SeleniumPluginForSK: the web-action loop of [selenium_plugin.py]

    A shallow embedding of [plugins/Selenium/selenium_plugin.py]: the action
    taxonomy, the decision record, the element matching helpers, the action
    executor and the bounded loop of [perform_web_action].

    The browser driver and the reasoning service are external collaborators.
    They are an [Env]: a record of operations over an arbitrary world state
    [W], each of which either completes or fails with a named exception.
    Every call the plugin makes is recorded, in order, in a trace of [event]s,
    so that statements about "how many clicks" or "no capture after the last
    tick" are statements about that trace. *)

From Stdlib Require Import List String Ascii ZArith NArith Bool Arith Lia.
From Stdlib Require Import Sorted.
Import ListNotations.
Local Open Scope string_scope.
Local Open Scope nat_scope.

(** ** Data model *)

(** [class WebActionType(Enum)] *)
Inductive WebActionType : Type :=
| CLICK
| TYPE_TEXT
| TYPE_ENTER
| WAIT
| NONE.

(** The attribute [action.action] as the interpreter sees it.  The annotation
    [action: WebActionType] is not enforced at the call of
    [execute_web_action]; the final [else] branch of that function exists for
    a value that is no member of the enumeration.  [Foreign raw] is such a
    value, with [raw] its [str()]. *)
Inductive action_value : Type :=
| Member (t : WebActionType)
| Foreign (raw : string).

(** [action.action == WebActionType.X]: members of a plain [Enum] compare by
    identity, and a foreign value equals no member. *)
Definition WebActionType_eqb (a b : WebActionType) : bool :=
  match a, b with
  | CLICK, CLICK | TYPE_TEXT, TYPE_TEXT | TYPE_ENTER, TYPE_ENTER
  | WAIT, WAIT | NONE, NONE => true
  | _, _ => false
  end.

Definition action_is (v : action_value) (t : WebActionType) : bool :=
  match v with
  | Member t' => WebActionType_eqb t' t
  | Foreign _ => false
  end.

Definition WebActionType_name (t : WebActionType) : string :=
  match t with
  | CLICK => "CLICK"
  | TYPE_TEXT => "TYPE_TEXT"
  | TYPE_ENTER => "TYPE_ENTER"
  | WAIT => "WAIT"
  | NONE => "NONE"
  end.

(** [str(action.action)], as interpolated by the f-string of the [else]
    branch. *)
Definition str_action_value (v : action_value) : string :=
  match v with
  | Member t => "WebActionType." ++ WebActionType_name t
  | Foreign raw => raw
  end.

(** [class WebAction(BaseModel)] *)
Record WebAction : Type := mkWebAction {
  action : action_value;
  target : string;
  content : string;
  termination_message : string
}.

(** A [WebElement] as returned by [find_elements]: the handle (session and
    element id, which is all its [repr] shows) together with what the plugin
    reads from it ([text], [is_displayed()], [get_attribute]). *)
Record WebElement : Type := mkWebElement {
  session_id : string;
  element_id : string;
  text : string;
  is_displayed : bool;
  attr_name : option string;
  attr_placeholder : option string
}.

Definition dquote : string := String "034"%char EmptyString.

(** [str(element)] inside an f-string. *)
Definition repr_WebElement (e : WebElement) : string :=
  "<selenium.webdriver.remote.webelement.WebElement (session=" ++ dquote ++
  session_id e ++ dquote ++ ", element=" ++ dquote ++ element_id e ++ dquote ++ ")>".

(** [Keys.RETURN] is the one-character string U+E006 (here in UTF-8). *)
Definition Keys_RETURN : string :=
  String "238"%char (String "128"%char (String "134"%char EmptyString)).

(** Values stored in the descriptor dictionaries. *)
Inductive pyval : Type :=
| PInt (z : Z)
| PStr (s : string)
| PNone.

Definition of_attr (o : option string) : pyval :=
  match o with
  | Some s => PStr s
  | None => PNone
  end.

(** A descriptor [dict]: its items in insertion order. *)
Definition pydict : Type := list (string * pyval).

Fixpoint dict_get (k : string) (d : pydict) : option pyval :=
  match d with
  | [] => None
  | (k', v) :: d' => if String.eqb k k' then Some v else dict_get k d'
  end.

(** ** Exceptions, outcomes and the trace *)

Inductive exn : Type :=
| IndexError                      (* list index out of range *)
| ValueError (msg : string)       (* raised by [execute_web_action] *)
| External (name : string).       (* raised inside the driver or the service *)

Inductive outcome (A : Type) : Type :=
| Ok (a : A)
| Raise (e : exn)
| OutOfFuel.
Arguments Ok {A} a.
Arguments Raise {A} e.
Arguments OutOfFuel {A}.

Inductive log_record : Type :=
| Navigating (url : string)         (* f"Navigating to {url}" *)
| Performing (a : WebAction).       (* f"Performing action: {action}" *)

(** Durations of [time.sleep] are in milliseconds: [0.2] is [200], [3] is
    [3000]. *)
Inductive event : Type :=
| EvSleep (ms : N)
| EvLog (r : log_record)
| EvGet (url : string)
| EvFindElement (tag : string)
| EvScreenshot (e : WebElement)
| EvParseAction (objective image_url : string)
| EvFindElements (tag : string)
| EvParseIndex (elements : list pydict) (target : string)
| EvClick (e : WebElement)
| EvSendKeys (e : WebElement) (keys : string).

(** What an external call answers. *)
Inductive reply (A : Type) : Type :=
| Done (a : A)
| Failed (name : string).
Arguments Done {A} a.
Arguments Failed {A} name.

(** The collaborators of the plugin over a world state [W]:
    [self.driver], the elements it hands out, [self.ai_client] and the
    clock.  [parse_WebAction objective image_url] is the call
    [beta.chat.completions.parse(..., response_format=WebAction)] of
    [get_web_action] followed by [response.choices[0].message.parsed];
    [parse_selected_element_idx elements target] is the one of
    [match_element_idx] followed by [.parsed.selected_element_idx].  A call
    that raises, or that has no parsed value to give, is [Failed]. *)
Record Env (W : Type) : Type := mkEnv {
  driver_get : string -> W -> reply unit * W;
  driver_find_element : string -> W -> reply WebElement * W;
  driver_find_elements : string -> W -> reply (list WebElement) * W;
  screenshot_as_base64 : WebElement -> W -> reply string * W;
  element_click : WebElement -> W -> reply unit * W;
  element_send_keys : WebElement -> string -> W -> reply unit * W;
  parse_WebAction : string -> string -> W -> reply WebAction * W;
  parse_selected_element_idx : list pydict -> string -> W -> reply Z * W;
  time_sleep : N -> W -> W
}.
Arguments driver_get {W} _ _ _.
Arguments driver_find_element {W} _ _ _.
Arguments driver_find_elements {W} _ _ _.
Arguments screenshot_as_base64 {W} _ _ _.
Arguments element_click {W} _ _ _.
Arguments element_send_keys {W} _ _ _ _.
Arguments parse_WebAction {W} _ _ _ _.
Arguments parse_selected_element_idx {W} _ _ _ _.
Arguments time_sleep {W} _ _ _.

(** ** The monad of the plugin: state, trace and exceptions *)

Definition M (W A : Type) : Type := W -> outcome A * W * list event.

Definition ret {W A} (a : A) : M W A := fun w => (Ok a, w, []).

Definition lift {W A} (o : outcome A) : M W A := fun w => (o, w, []).

Definition bind {W A B} (m : M W A) (k : A -> M W B) : M W B :=
  fun w =>
    match m w with
    | (Ok a, w1, t1) => let '(r, w2, t2) := k a w1 in (r, w2, (t1 ++ t2)%list)
    | (Raise e, w1, t1) => (Raise e, w1, t1)
    | (OutOfFuel, w1, t1) => (OutOfFuel, w1, t1)
    end.

Definition emit {W} (ev : event) : M W unit := fun w => (Ok tt, w, [ev]).

Definition call {W A} (ev : event) (op : W -> reply A * W) : M W A :=
  fun w =>
    match op w with
    | (Done a, w1) => (Ok a, w1, [ev])
    | (Failed name, w1) => (Raise (External name), w1, [ev])
    end.

Declare Scope plugin_scope.
Delimit Scope plugin_scope with plugin.
Notation "x <- m ;; k" := (bind m (fun x => k))
  (at level 61, m at next level, right associativity) : plugin_scope.
Notation "m ;; k" := (bind m (fun _ => k))
  (at level 61, right associativity) : plugin_scope.
Local Open Scope plugin_scope.

(** ** Python list subscripting and enumeration *)

(** [l[idx]]: a negative index counts from the end; anything outside
    [-len(l) .. len(l)-1] raises [IndexError]. *)
Definition list_getitem {A} (l : list A) (idx : Z) : outcome A :=
  let n := Z.of_nat (List.length l) in
  let i := if (idx <? 0)%Z then (idx + n)%Z else idx in
  if ((i <? 0) || (n <=? i))%Z then Raise IndexError
  else match nth_error l (Z.to_nat i) with
       | Some x => Ok x
       | None => Raise IndexError
       end.

Fixpoint enumerate_from {A} (start : nat) (l : list A) : list (nat * A) :=
  match l with
  | [] => []
  | x :: l' => (start, x) :: enumerate_from (S start) l'
  end.

(** [enumerate(l)] *)
Definition enumerate {A} (l : list A) : list (nat * A) := enumerate_from 0 l.

(** The comprehension of [match_clickable]:
    [[{"idx": i, "text": element.text} for i, element in enumerate(elements)
      if element.is_displayed()]] *)
Definition clickable_dicts (elements : list WebElement) : list pydict :=
  map (fun ie => [("idx", PInt (Z.of_nat (fst ie))); ("text", PStr (text (snd ie)))])
      (filter (fun ie => is_displayed (snd ie)) (enumerate elements)).

(** The comprehension of [match_input]. *)
Definition input_dicts (elements : list WebElement) : list pydict :=
  map (fun ie => [("idx", PInt (Z.of_nat (fst ie)));
                  ("name", of_attr (attr_name (snd ie)));
                  ("placeholder", of_attr (attr_placeholder (snd ie)))])
      (filter (fun ie => is_displayed (snd ie)) (enumerate elements)).

(** ** The plugin *)

Definition max_attempts : nat := 15.

Definition exhausted_message : string :=
  "Max attempts reached. Could not complete the action.".

Section Plugin.

Context {W : Type} (env : Env W).

(** [time.sleep(seconds)] *)
Definition sleep (ms : N) : M W unit :=
  fun w => (Ok tt, time_sleep env ms w, [EvSleep ms]).

(** [SeleniumPlugin.open_web_page] *)
Definition open_web_page (url : string) : M W string :=
  emit (EvLog (Navigating url)) ;;
  call (EvGet url) (driver_get env url) ;;
  ret "Web page opened. You may now perform actions.".

(** [SeleniumPlugin.capture_current_page] *)
Definition capture_current_page : M W string :=
  body_element <- call (EvFindElement "body") (driver_find_element env "body") ;;
  screenshot_b64 <- call (EvScreenshot body_element)
                         (screenshot_as_base64 env body_element) ;;
  ret screenshot_b64.

(** [SeleniumPlugin.get_web_action] *)
Definition get_web_action (objective : string) : M W WebAction :=
  screenshot_b64 <- capture_current_page ;;
  let image_url := "data:image/png;base64," ++ screenshot_b64 in
  call (EvParseAction objective image_url)
       (parse_WebAction env objective image_url).

(** [SeleniumPlugin.match_element_idx] *)
Definition match_element_idx (elements : list pydict) (target : string) : M W Z :=
  idx <- call (EvParseIndex elements target)
              (parse_selected_element_idx env elements target) ;;
  ret idx.

(** [SeleniumPlugin.match_clickable] *)
Definition match_clickable (elements : list WebElement) (target : string)
  : M W WebElement :=
  let elements_dicts := clickable_dicts elements in
  idx <- match_element_idx elements_dicts target ;;
  lift (list_getitem elements idx).

(** [SeleniumPlugin.match_input] *)
Definition match_input (elements : list WebElement) (target : string)
  : M W WebElement :=
  let elements_dicts := input_dicts elements in
  idx <- match_element_idx elements_dicts target ;;
  lift (list_getitem elements idx).

(** [SeleniumPlugin.execute_web_action] *)
Definition execute_web_action (a : WebAction) : M W string :=
  if action_is (action a) CLICK then
    buttons <- call (EvFindElements "button") (driver_find_elements env "button") ;;
    anchors <- call (EvFindElements "a") (driver_find_elements env "a") ;;
    let elements := (buttons ++ anchors)%list in
    element <- match_clickable elements (target a) ;;
    call (EvClick element) (element_click env element) ;;
    ret ("Clicked the element: " ++ repr_WebElement element)
  else if action_is (action a) TYPE_TEXT then
    elements <- call (EvFindElements "input") (driver_find_elements env "input") ;;
    element <- match_input elements (target a) ;;
    call (EvSendKeys element (content a))
         (element_send_keys env element (content a)) ;;
    ret ("Typed '" ++ content a ++ "' in the input field: " ++ repr_WebElement element)
  else if action_is (action a) TYPE_ENTER then
    elements <- call (EvFindElements "input") (driver_find_elements env "input") ;;
    element <- match_input elements (target a) ;;
    call (EvSendKeys element Keys_RETURN)
         (element_send_keys env element Keys_RETURN) ;;
    ret ("Pressed Enter in the input field: " ++ repr_WebElement element)
  else if action_is (action a) WAIT then
    sleep 3000 ;;
    ret "Waiting..."
  else if action_is (action a) NONE then
    ret (termination_message a)
  else
    lift (Raise (ValueError ("Unsupported action type: " ++ str_action_value (action a)))).

(** The [while not done] loop of [perform_web_action].  [fuel] bounds the
    number of iterations the model unfolds; [while_not_done_fuel] below
    shows that [S max_attempts] iterations are always enough.  Setting
    [done = True] ends the loop, and the function returns [message], which
    was just overwritten with [action.termination_message]. *)
Fixpoint while_not_done (fuel : nat) (action_description : string)
         (current_attempt : nat) : M W string :=
  match fuel with
  | O => lift OutOfFuel
  | S fuel' =>
      let current_attempt := current_attempt + 1 in
      if max_attempts <? current_attempt then
        ret exhausted_message
      else
        sleep 200 ;;
        a <- get_web_action action_description ;;
        emit (EvLog (Performing a)) ;;
        message <- execute_web_action a ;;
        if action_is (action a) NONE then
          let message := termination_message a in
          ret message
        else
          while_not_done fuel' action_description current_attempt
  end.

(** [SeleniumPlugin.perform_web_action] *)
Definition perform_web_action (action_description : string) : M W string :=
  while_not_done (S max_attempts) action_description 0.

End Plugin.

Arguments sleep {W} env ms w.
Arguments while_not_done {W} env fuel action_description current_attempt w.

(** ** Ticks and what is counted on a trace *)

Section Ticks.

Context {W : Type} (env : Env W).

(** One pass through the body of the loop: the pause, the capture, the
    decision, the log line and the execution.  The loop itself does not call
    this helper: [while_not_done_unfold] relates the two. *)
Definition tick (action_description : string) : M W (WebAction * string) :=
  sleep env 200 ;;
  a <- get_web_action env action_description ;;
  emit (EvLog (Performing a)) ;;
  message <- execute_web_action env a ;;
  ret (a, message).

(** [completed_ticks d w acts w' t]: starting in world [w], [length acts]
    consecutive ticks complete without an exception, the decisions they
    receive are [acts] in order, and they leave the world [w'] and the
    trace [t]. *)
Inductive completed_ticks (d : string)
  : W -> list WebAction -> W -> list event -> Prop :=
| ticks_nil w : completed_ticks d w [] w []
| ticks_cons w a message w1 t1 acts w2 t2 :
    tick d w = (Ok (a, message), w1, t1) ->
    completed_ticks d w1 acts w2 t2 ->
    completed_ticks d w (a :: acts) w2 (t1 ++ t2)%list.

(** [completed_ticks], computed. *)
Fixpoint run_ticks (n : nat) (d : string) (w : W)
  : option (list WebAction * W * list event) :=
  match n with
  | O => Some ([], w, [])
  | S n' =>
      match tick d w with
      | (Ok (a, _), w1, t1) =>
          match run_ticks n' d w1 with
          | Some (acts, w2, t2) => Some (a :: acts, w2, (t1 ++ t2)%list)
          | None => None
          end
      | _ => None
      end
  end.

End Ticks.

Definition count (p : event -> bool) (t : list event) : nat :=
  List.length (filter p t).

(** The action-performing methods of the driver: [click] and [send_keys]. *)
Definition is_action_call (ev : event) : bool :=
  match ev with
  | EvClick _ | EvSendKeys _ _ => true
  | _ => false
  end.

(** A browser mutation: an action call or a navigation. *)
Definition is_mutation (ev : event) : bool :=
  match ev with
  | EvClick _ | EvSendKeys _ _ | EvGet _ => true
  | _ => false
  end.

Definition is_decision_call (ev : event) : bool :=
  match ev with
  | EvParseAction _ _ => true
  | _ => false
  end.

Definition is_capture (ev : event) : bool :=
  match ev with
  | EvScreenshot _ => true
  | _ => false
  end.

(** The pause before each tick, [time.sleep(0.2)]. *)
Definition is_tick_pause (ev : event) : bool :=
  match ev with
  | EvSleep ms => N.eqb ms 200
  | _ => false
  end.

(** An element-resolution step: an enumeration or a call of the index
    service. *)
Definition is_resolution (ev : event) : bool :=
  match ev with
  | EvFindElements _ | EvParseIndex _ _ => true
  | _ => false
  end.

Definition not_none (a : WebAction) : Prop := action_is (action a) NONE = false.

(** ** A scripted environment

    A concrete world for running the plugin: the page is three fixed lists of
    elements, the two services answer from scripts and fail when the script
    is used up, and the driver fails to navigate when [online] is off. *)

Record script : Type := mkScript {
  online : bool;
  buttons_of : list WebElement;
  anchors_of : list WebElement;
  inputs_of : list WebElement;
  decisions : list WebAction;
  indices : list Z
}.

Definition body_element : WebElement :=
  mkWebElement "s1" "body" "" true None None.

Definition scripted : Env script := {|
  driver_get := fun _ w =>
    if online w then (Done tt, w) else (Failed "WebDriverException", w);
  driver_find_element := fun _ w => (Done body_element, w);
  driver_find_elements := fun tag w =>
    if String.eqb tag "button" then (Done (buttons_of w), w)
    else if String.eqb tag "a" then (Done (anchors_of w), w)
    else if String.eqb tag "input" then (Done (inputs_of w), w)
    else (Done [], w);
  screenshot_as_base64 := fun _ w => (Done "iVBORw0KGgo=", w);
  element_click := fun _ w => (Done tt, w);
  element_send_keys := fun _ _ w => (Done tt, w);
  parse_WebAction := fun _ _ w =>
    match decisions w with
    | a :: rest =>
        (Done a, mkScript (online w) (buttons_of w) (anchors_of w) (inputs_of w)
                          rest (indices w))
    | [] => (Failed "APIConnectionError", w)
    end;
  parse_selected_element_idx := fun _ _ w =>
    match indices w with
    | i :: rest =>
        (Done i, mkScript (online w) (buttons_of w) (anchors_of w) (inputs_of w)
                          (decisions w) rest)
    | [] => (Failed "APIConnectionError", w)
    end;
  time_sleep := fun _ w => w
|}.

Definition shown (id txt : string) : WebElement :=
  mkWebElement "s1" id txt true (Some id) None.

Definition hidden (id txt : string) : WebElement :=
  mkWebElement "s1" id txt false (Some id) None.

Definition decide (k : WebActionType) (tgt cnt msg : string) : WebAction :=
  mkWebAction (Member k) tgt cnt msg.

Definition wait_decision : WebAction := decide WAIT "" "" "".

(** The page of the running examples: one visible button, one hidden
    anchor, one visible input. *)
Definition page (ds : list WebAction) (ixs : list Z) : script :=
  mkScript true [shown "b0" "Accept cookies"] [hidden "a0" "Imprint"]
           [shown "q" ""] ds ixs.

(** ** Scenarios

    Worlds and decisions on which the statements below are run. *)

Definition wait_tick_trace : list event :=
  [EvSleep 200; EvFindElement "body"; EvScreenshot body_element;
   EvParseAction "x" "data:image/png;base64,iVBORw0KGgo=";
   EvLog (Performing wait_decision); EvSleep 3000].

Definition click_decision : WebAction := decide CLICK "Accept cookies" "" "".

Definition click_tick_trace : list event :=
  [EvSleep 200; EvFindElement "body"; EvScreenshot body_element;
   EvParseAction "x" "data:image/png;base64,iVBORw0KGgo=";
   EvLog (Performing click_decision);
   EvFindElements "button"; EvFindElements "a";
   EvParseIndex [[("idx", PInt 0); ("text", PStr "Accept cookies")]] "Accept cookies";
   EvClick (shown "b0" "Accept cookies")].

Definition none_tick_trace (a : WebAction) : list event :=
  [EvSleep 200; EvFindElement "body"; EvScreenshot body_element;
   EvParseAction "x" "data:image/png;base64,iVBORw0KGgo=";
   EvLog (Performing a)].

Definition email_decision : WebAction :=
  mkWebAction (Member NONE) "ignored target" "ignored content" "contact@example.com".

Definition silent_decision : WebAction := mkWebAction (Member NONE) "" "" "".

Definition type_decision : WebAction := decide TYPE_TEXT "search box" "laptops" "".
Definition enter_decision : WebAction := decide TYPE_ENTER "search box" "" "".
Definition imprint_decision : WebAction := decide CLICK "imprint link" "" "".

Definition scroll_decision : WebAction := mkWebAction (Foreign "scroll") "page" "" "".


Definition two_buttons : list WebElement :=
  [shown "b0" "Accept"; shown "b1" "Decline"].

Definition buttons_page (ixs : list Z) : script :=
  mkScript true two_buttons [] [] [] ixs.

(** A browser that cannot navigate and a decision service that cannot be
    reached. *)
Definition offline_page : script := mkScript false [] [] [] [] [].

Definition menu_decision : WebAction := decide CLICK "the menu" "" "".

(** A page whose only button is not displayed. *)
Definition hidden_menu_page (ixs : list Z) : script :=
  mkScript true [hidden "b0" "Menu"] [] [] [] ixs.

(** A page without any element. *)
Definition blank_page (ixs : list Z) : script := mkScript true [] [] [] [] ixs.

(** ** Statements that the code is compared with

    Each of these says, over the embedding, what a sentence of the
    specification says in words. *)

Definition contains (s sub : string) : Prop :=
  exists before after, s = (before ++ sub ++ after)%string.


(** The claim in the words of the specification: the resolver answers with
    an index inside [0, len(descriptors)) or fails. *)
Definition resolver_in_range {W} (env : Env W) (descriptors : list pydict)
           (tgt : string) (w : W) : Prop :=
  match match_element_idx env descriptors tgt w with
  | (Ok idx, _, _) => (0 <= idx < Z.of_nat (List.length descriptors))%Z
  | (Raise _, _, _) => True
  | (OutOfFuel, _, _) => False
  end.



(** The claim in the words of the specification: with no visible element
    of the required kind, the executor fails. *)
Definition fails_on_empty_pool {W} (env : Env W) (a : WebAction) (w : W) : Prop :=
  exists e w' t, execute_web_action env a w = (Raise e, w', t).

(** ** What is measured on a run of [perform_web_action] *)

(** A call of [driver.get]. *)
Definition is_navigation (ev : event) : bool :=
  match ev with
  | EvGet _ => true
  | _ => false
  end.

(** A call of the index service. *)
Definition is_index_call (ev : event) : bool :=
  match ev with
  | EvParseIndex _ _ => true
  | _ => false
  end.

(** A call of the reasoning service, of either shape. *)
Definition is_service_call (ev : event) : bool :=
  is_decision_call ev || is_index_call ev.

(** The time spent in [time.sleep], in milliseconds. *)
Fixpoint total_sleep (t : list event) : N :=
  match t with
  | [] => 0
  | EvSleep ms :: t' => ms + total_sleep t'
  | _ :: t' => total_sleep t'
  end.

(** What a decision call is made with: the objective of the run, and an
    image URL that starts as a base64 PNG data URL does. *)
Definition decision_call_for (objective : string) (ev : event) : Prop :=
  match ev with
  | EvParseAction o image_url =>
      o = objective /\
      exists screenshot_b64, image_url = ("data:image/png;base64," ++ screenshot_b64)%string
  | _ => True
  end.

(** The positions that the descriptors of a list of elements carry. *)
Definition descriptor_positions (elements : list WebElement) : list nat :=
  map fst (filter (fun ie => is_displayed (snd ie)) (enumerate elements)).

(** What is left of a trace after the first log line of a [NONE] decision;
    nothing when there is no such line. *)
Fixpoint after_none_decision (t : list event) : list event :=
  match t with
  | [] => []
  | EvLog (Performing a) :: t' =>
      if action_is (action a) NONE then t' else after_none_decision t'
  | _ :: t' => after_none_decision t'
  end.

Definition is_log (ev : event) : bool :=
  match ev with
  | EvLog _ => true
  | _ => false
  end.

(** ** [plugins/Web/web_plugin.py] *)

(** A decoded JSON value, as [response.json()] gives it.  A number keeps its
    literal; an object is its members in order, looked up by key. *)
#[warnings="-register-all"]
Inductive json : Type :=
| JNull
| JBool (b : bool)
| JNumber (literal : string)
| JString (s : string)
| JArray (items : list json)
| JObject (members : list (string * json)).

Fixpoint members_get (key : string) (members : list (string * json)) : option json :=
  match members with
  | [] => None
  | (k, v) :: rest => if String.eqb key k then Some v else members_get key rest
  end.

(** The exceptions of the web plugin.  [SliceOfDict] is what subscripting a
    [dict] with a slice raises: a [TypeError] (unhashable type) before
    Python 3.12, a [KeyError] of the slice from 3.12 on. *)
Inductive web_exn : Type :=
| KeyError (key : string)
| TypeError
| SliceOfDict
| AttributeError
| HTTPError (status : Z)
| JSONDecodeError
| WebExternal (name : string).

Inductive web_outcome (A : Type) : Type :=
| Returns (a : A)
| Raises (e : web_exn)
| Unfinished.
Arguments Returns {A} a.
Arguments Raises {A} e.
Arguments Unfinished {A}.

(** The text of a page, as a Python [str]: the sequence of its Unicode code
    points.  [len] and slices of a [str] count code points, so the text is
    not kept as the bytes of an encoding. *)
Definition pytext : Type := list N.

(** The text of an ASCII literal. *)
Definition code_points (s : string) : pytext :=
  map N_of_ascii (list_ascii_of_string s).

(** A [requests.Response]: its status, its [text], and its body decoded as
    JSON when it is JSON. *)
Record Response : Type := mkResponse {
  status_code : Z;
  text_of : pytext;
  json_of : option json
}.

(** An instance of the [DataModel] that [create_model] builds: one string
    for each field. *)
Definition DataModel : Type := list (string * string).

(** [class ParseResult(BaseModel)] *)
Record ParseResult : Type := mkParseResult {
  extracted_data : list DataModel;
  next_url : string
}.

Inductive web_event : Type :=
| WebLog (step : nat) (url : string)          (* f"Step {step}: Fetching {url}..." *)
| RequestsGet (url : string) (headers params : list (string * string))
| ParseSite (fields_to_extract : list string) (source_code : pytext).

(** The collaborators of [WebPlugin]: [requests.get] and the [parse] call of
    [self.ai_client] with [response_format=ParseResult], followed by
    [completion.choices[0].message.parsed].  A call that raises, or that has
    no parsed value to give, is [Failed]. *)
Record WebEnv (W : Type) : Type := mkWebEnv {
  requests_get :
    string -> list (string * string) -> list (string * string) -> W -> reply Response * W;
  parse_ParseResult : list string -> pytext -> W -> reply ParseResult * W
}.
Arguments requests_get {W} _ _ _ _ _.
Arguments parse_ParseResult {W} _ _ _ _.

Definition WM (W A : Type) : Type := W -> web_outcome A * W * list web_event.

Definition web_ret {W A} (a : A) : WM W A := fun w => (Returns a, w, []).

Definition web_lift {W A} (o : web_outcome A) : WM W A := fun w => (o, w, []).

Definition web_bind {W A B} (m : WM W A) (k : A -> WM W B) : WM W B :=
  fun w =>
    match m w with
    | (Returns a, w1, t1) => let '(r, w2, t2) := k a w1 in (r, w2, (t1 ++ t2)%list)
    | (Raises e, w1, t1) => (Raises e, w1, t1)
    | (Unfinished, w1, t1) => (Unfinished, w1, t1)
    end.

Definition web_emit {W} (ev : web_event) : WM W unit := fun w => (Returns tt, w, [ev]).

Definition web_call {W A} (ev : web_event) (op : W -> reply A * W) : WM W A :=
  fun w =>
    match op w with
    | (Done a, w1) => (Returns a, w1, [ev])
    | (Failed name, w1) => (Raises (WebExternal name), w1, [ev])
    end.

(** The length of a string of the embedding. *)
Definition len (s : string) : N := N.of_nat (String.length s).

(** The first [n] characters of a string of the embedding. *)
Fixpoint slice_to (n : N) (s : string) : string :=
  match s with
  | EmptyString => EmptyString
  | String c s' =>
      if (n =? 0)%N then EmptyString else String c (slice_to (N.pred n) s')
  end.

(** [len(text)] of a [str]: the number of its code points. *)
Definition text_len (text : pytext) : N := N.of_nat (List.length text).

(** [text[:n]] of a [str], for a bound [n] that is not negative: its first
    [n] code points. *)
Fixpoint text_slice_to (n : N) (text : pytext) : pytext :=
  match text with
  | [] => []
  | c :: text' =>
      if (n =? 0)%N then [] else c :: text_slice_to (N.pred n) text'
  end.

(** The cap on the source code handed to the service:
    [if len(source_code) > 300_000: source_code = source_code[:300_000]]. *)
Definition cap_source_code (source_code : pytext) : pytext :=
  if (300000 <? text_len source_code)%N
  then text_slice_to 300000 source_code else source_code.

Definition max_steps : nat := 3.

Definition too_many_steps : string :=
  "Too many steps needed to extract requested data.".

Definition not_found : string := "The requested data was not found.".

(** What [extract_data_from_site] returns: one of its two messages, or the
    records found. *)
Inductive extraction : Type :=
| Message (s : string)
| Data (records : list DataModel).

(** [v[key]] for a string key. *)
Definition json_getitem (v : json) (key : string) : web_outcome json :=
  match v with
  | JObject members =>
      match members_get key members with
      | Some x => Returns x
      | None => Raises (KeyError key)
      end
  | _ => Raises TypeError
  end.

(** [v.get(key, default)] *)
Definition json_get (v : json) (key : string) (default : json) : web_outcome json :=
  match v with
  | JObject members =>
      match members_get key members with
      | Some x => Returns x
      | None => Returns default
      end
  | _ => Raises AttributeError
  end.

Fixpoint characters (s : string) : list json :=
  match s with
  | EmptyString => []
  | String c s' => JString (String c EmptyString) :: characters s'
  end.

(** What [for result in v[:5]] iterates over: the first five items of a
    list, the first five characters of a string. *)
Definition json_first_five (v : json) : web_outcome (list json) :=
  match v with
  | JArray items => Returns (firstn 5 items)
  | JString s => Returns (characters (slice_to 5 s))
  | JObject _ => Raises SliceOfDict
  | _ => Raises TypeError
  end.

(** One entry of the list that [perform_web_search] returns. *)
Record hit : Type := mkHit {
  hit_name : json;
  hit_url : json;
  hit_snippet : json;
  hit_deep_links : json
}.

(** The body of the [for] loop of [perform_web_search]. *)
Definition make_hit (result : json) : web_outcome hit :=
  match json_getitem result "name" with
  | Returns name =>
      match json_getitem result "url" with
      | Returns url =>
          match json_getitem result "snippet" with
          | Returns snippet =>
              match json_get result "deepLinks" (JArray []) with
              | Returns deep_links => Returns (mkHit name url snippet deep_links)
              | Raises e => Raises e
              | Unfinished => Unfinished
              end
          | Raises e => Raises e
          | Unfinished => Unfinished
          end
      | Raises e => Raises e
      | Unfinished => Unfinished
      end
  | Raises e => Raises e
  | Unfinished => Unfinished
  end.

(** The [for] loop of [perform_web_search], appending to [results]. *)
Fixpoint append_hits (items : list json) (results : list hit) : web_outcome (list hit) :=
  match items with
  | [] => Returns results
  | result :: rest =>
      match make_hit result with
      | Returns h => append_hits rest (results ++ [h])%list
      | Raises e => Raises e
      | Unfinished => Unfinished
      end
  end.

(** [response.raise_for_status()] *)
Definition raise_for_status (response : Response) : web_outcome unit :=
  if ((400 <=? status_code response) && (status_code response <? 600))%Z
  then Raises (HTTPError (status_code response))
  else Returns tt.

(** [response.json()] *)
Definition response_json (response : Response) : web_outcome json :=
  match json_of response with
  | Some v => Returns v
  | None => Raises JSONDecodeError
  end.

(** What [perform_web_search] does with the response it received. *)
Definition search_hits (response : Response) : web_outcome (list hit) :=
  match raise_for_status response with
  | Returns _ =>
      match response_json response with
      | Returns search_results =>
          match json_getitem search_results "webPages" with
          | Returns web_pages =>
              match json_getitem web_pages "value" with
              | Returns value =>
                  match json_first_five value with
                  | Returns items => append_hits items []
                  | Raises e => Raises e
                  | Unfinished => Unfinished
                  end
              | Raises e => Raises e
              | Unfinished => Unfinished
              end
          | Raises e => Raises e
          | Unfinished => Unfinished
          end
      | Raises e => Raises e
      | Unfinished => Unfinished
      end
  | Raises e => Raises e
  | Unfinished => Unfinished
  end.

Definition search_url : string := "https://api.bing.microsoft.com/v7.0/search".

Section WebPlugin.

Context {W : Type} (env : WebEnv W).

(** The [while len(extracted_data) == 0] loop of [extract_data_from_site].
    [fuel] bounds the iterations the model unfolds; [while_no_data_fuel]
    shows that [S max_steps] are enough.  When the service has found records
    they become [extracted_data], the loop condition fails and they are
    returned. *)
Fixpoint while_no_data (fuel : nat) (fields_to_extract : list string)
         (url : string) (step : nat) : WM W extraction :=
  match fuel with
  | O => web_lift Unfinished
  | S fuel' =>
      let step := step + 1 in
      if max_steps <? step then
        web_ret (Message too_many_steps)
      else
        web_bind (web_emit (WebLog step url)) (fun _ =>
        web_bind (web_call (RequestsGet url [] []) (requests_get env url [] []))
                 (fun response =>
        let source_code := text_of response in
        let source_code := cap_source_code source_code in
        web_bind (web_call (ParseSite fields_to_extract source_code)
                           (parse_ParseResult env fields_to_extract source_code))
                 (fun result =>
        if 0 <? List.length (extracted_data result) then
          web_ret (Data (extracted_data result))
        else if negb (String.eqb (next_url result) url) then
          while_no_data fuel' fields_to_extract (next_url result) step
        else
          web_ret (Message not_found))))
  end.

(** [WebPlugin.extract_data_from_site], for field names that [create_model]
    accepts. *)
Definition extract_data_from_site (url : string) (fields_to_extract : list string)
  : WM W extraction :=
  while_no_data (S max_steps) fields_to_extract url 0.

(** [WebPlugin.perform_web_search]; [search_key] is [self.search_key]. *)
Definition perform_web_search (search_key query : string) : WM W (list hit) :=
  let headers := [("Ocp-Apim-Subscription-Key", search_key)] in
  let params := [("q", query)] in
  web_bind (web_call (RequestsGet search_url headers params)
                     (requests_get env search_url headers params))
           (fun response => web_lift (search_hits response)).

End WebPlugin.

Arguments while_no_data {W} env fuel fields_to_extract url step w.

(** ** What is measured on a run of [extract_data_from_site] *)

Definition web_count (p : web_event -> bool) (t : list web_event) : nat :=
  List.length (filter p t).

Definition is_fetch (ev : web_event) : bool :=
  match ev with
  | RequestsGet _ _ _ => true
  | _ => false
  end.

Definition is_site_call (ev : web_event) : bool :=
  match ev with
  | ParseSite _ _ => true
  | _ => false
  end.

(** What the service is called with: the fields asked for, and a source of
    300000 code points at most. *)
Definition site_call_for (fields_to_extract : list string) (ev : web_event) : Prop :=
  match ev with
  | ParseSite fields source_code =>
      fields = fields_to_extract /\ (text_len source_code <= 300000)%N
  | _ => True
  end.

Section Moves.

Context {W : Type} (env : WebEnv W).

(** [moved fields step url w n url' w' t]: starting at [url] in world [w]
    with [step] iterations behind, [n] iterations in a row fetch the page,
    get no record for it and are sent to another URL; they end at [url'] in
    world [w'] and leave the trace [t]. *)
Inductive moved (fields : list string)
  : nat -> string -> W -> nat -> string -> W -> list web_event -> Prop :=
| moved_nil step url w : moved fields step url w 0 url w []
| moved_cons step url w response w1 result w2 n url' w' t :
    requests_get env url [] [] w = (Done response, w1) ->
    parse_ParseResult env fields (cap_source_code (text_of response)) w1
    = (Done result, w2) ->
    extracted_data result = [] ->
    next_url result <> url ->
    moved fields (step + 1) (next_url result) w2 n url' w' t ->
    moved fields step url w (S n) url' w'
          (WebLog (step + 1) url :: RequestsGet url [] [] ::
           ParseSite fields (cap_source_code (text_of response)) :: t).

End Moves.

(** A scripted web: pages by URL, and a service that answers from a script. *)
Record web_script : Type := mkWebScript {
  pages_of : list (string * Response);
  answers : list ParseResult
}.

Fixpoint page_at (url : string) (pages : list (string * Response)) : option Response :=
  match pages with
  | [] => None
  | (u, r) :: rest => if String.eqb url u then Some r else page_at url rest
  end.

Definition scripted_web : WebEnv web_script := {|
  requests_get := fun url _ _ w =>
    match page_at url (pages_of w) with
    | Some r => (Done r, w)
    | None => (Failed "ConnectionError", w)
    end;
  parse_ParseResult := fun _ _ w =>
    match answers w with
    | a :: rest => (Done a, mkWebScript (pages_of w) rest)
    | [] => (Failed "APIConnectionError", w)
    end
|}.

Definition html (body : string) : Response := mkResponse 200 (code_points body) None.

Definition two_pages : list (string * Response) :=
  [("https://a.example", html "<a href=/contact>Contact</a>");
   ("https://a.example/contact", html "<p>Phone: 555 0100</p>")].

Definition phone_record : DataModel := [("phone", "555 0100")].

Definition bing_item (n : string) : json :=
  JObject [("name", JString n); ("url", JString ("https://" ++ n));
           ("snippet", JString "...")].

Definition bing_response (items : list json) : Response :=
  mkResponse 200 [] (Some (JObject [("webPages", JObject [("value", JArray items)])])).

Definition bing_web (r : Response) : web_script :=
  mkWebScript [(search_url, r)] [].

Definition contact_site : web_script :=
  mkWebScript two_pages
    [mkParseResult [] "https://a.example/contact"; mkParseResult [phone_record] ""].

(** Two pages that name each other: the loop is not noticed. *)
Definition ping_pong : web_script :=
  mkWebScript
    [("https://a.example", html "see b"); ("https://b.example", html "see a")]
    [mkParseResult [] "https://b.example"; mkParseResult [] "https://a.example";
     mkParseResult [] "https://b.example"; mkParseResult [] "https://a.example"].

Definition ping_pong_trace : list web_event :=
  [WebLog 1 "https://a.example"; RequestsGet "https://a.example" [] [];
   ParseSite ["phone"] (code_points "see b");
   WebLog 2 "https://b.example"; RequestsGet "https://b.example" [] [];
   ParseSite ["phone"] (code_points "see a");
   WebLog 3 "https://a.example"; RequestsGet "https://a.example" [] [];
   ParseSite ["phone"] (code_points "see b")].

Definition six_results : list json :=
  [bing_item "a.example"; bing_item "b.example"; bing_item "c.example";
   bing_item "d.example"; bing_item "e.example"; JNull].

Definition plain_hit (n : string) : hit :=
  mkHit (JString n) (JString ("https://" ++ n)) (JString "...") (JArray []).

Definition five_hits : list hit :=
  [plain_hit "a.example"; plain_hit "b.example"; plain_hit "c.example";
   plain_hit "d.example"; plain_hit "e.example"].

Definition no_web_results : Response :=
  mkResponse 200 [] (Some (JObject [("_type", JString "SearchResponse")])).

Definition unauthorized : Response :=
  mkResponse 401 [] (Some (JObject [("webPages", JObject [("value", JArray [])])])).




(** What a decision call is made with: the objective of the run, and the
    data URL of a screenshot that the driver gave for the body element it had
    just found. *)
Definition decision_call_after_capture {W} (env : Env W) (objective : string)
           (ev : event) : Prop :=
  match ev with
  | EvParseAction o image_url =>
      o = objective /\
      exists w0 body w1 screenshot_b64 w2,
        driver_find_element env "body" w0 = (Done body, w1) /\
        screenshot_as_base64 env body w1 = (Done screenshot_b64, w2) /\
        image_url = ("data:image/png;base64," ++ screenshot_b64)%string
  | _ => True
  end.

(** ** Two scenarios from the specification *)

Example cookie_then_done :
  perform_web_action scripted "find the contact email on this page"
    (page [decide CLICK "Accept cookies" "" "";
           decide NONE "" "" "contact@example.com"] [0%Z])
  = (Ok "contact@example.com",
     page [] [],
     [EvSleep 200; EvFindElement "body"; EvScreenshot body_element;
      EvParseAction "find the contact email on this page"
                    "data:image/png;base64,iVBORw0KGgo=";
      EvLog (Performing (decide CLICK "Accept cookies" "" ""));
      EvFindElements "button"; EvFindElements "a";
      EvParseIndex [[("idx", PInt 0); ("text", PStr "Accept cookies")]]
                   "Accept cookies";
      EvClick (shown "b0" "Accept cookies");
      EvSleep 200; EvFindElement "body"; EvScreenshot body_element;
      EvParseAction "find the contact email on this page"
                    "data:image/png;base64,iVBORw0KGgo=";
      EvLog (Performing (decide NONE "" "" "contact@example.com"))]).
Proof. vm_compute. reflexivity. Qed.

Example always_wait :
  let '(r, _, t) := perform_web_action scripted "x" (page (repeat wait_decision 20) []) in
  r = Ok exhausted_message /\ count is_decision_call t = 15 /\ count is_action_call t = 0.
Proof. vm_compute. auto. Qed.

(** The budget is tight: fifteen [CLICK] decisions give fifteen clicks. *)
Example always_click :
  let '(r, _, t) := perform_web_action scripted "x"
                      (page (repeat click_decision 20) (repeat 0%Z 20)) in
  r = Ok exhausted_message /\ count is_action_call t = 15.
Proof. vm_compute. auto. Qed.

(** ** Counting on traces *)

Lemma count_app p t1 t2 : count p (t1 ++ t2) = count p t1 + count p t2.
Proof. unfold count. rewrite filter_app, length_app. reflexivity. Qed.

Lemma count_nil p : count p [] = 0.
Proof. reflexivity. Qed.

Lemma count_cons p ev t :
  count p (ev :: t) = (if p ev then 1 else 0) + count p t.
Proof. unfold count. simpl. destruct (p ev); reflexivity. Qed.

(** ** Python subscripting *)

Lemma list_getitem_nonneg {A} (l : list A) (idx : Z) :
  (0 <= idx < Z.of_nat (List.length l))%Z ->
  exists x, nth_error l (Z.to_nat idx) = Some x /\ list_getitem l idx = Ok x.
Proof.
  intros H. unfold list_getitem.
  destruct (Z.ltb_spec idx 0); [lia|].
  destruct (Z.ltb_spec idx 0); [lia|].
  destruct (Z.leb_spec (Z.of_nat (List.length l)) idx); [lia|]. simpl.
  destruct (nth_error l (Z.to_nat idx)) eqn:E; [eauto|].
  apply nth_error_None in E. lia.
Qed.

Lemma list_getitem_negative {A} (l : list A) (idx : Z) :
  (- Z.of_nat (List.length l) <= idx < 0)%Z ->
  exists x, nth_error l (Z.to_nat (idx + Z.of_nat (List.length l))) = Some x
            /\ list_getitem l idx = Ok x.
Proof.
  intros H. unfold list_getitem.
  destruct (Z.ltb_spec idx 0); [|lia].
  destruct (Z.ltb_spec (idx + Z.of_nat (List.length l)) 0); [lia|].
  destruct (Z.leb_spec (Z.of_nat (List.length l)) (idx + Z.of_nat (List.length l))); [lia|].
  simpl.
  destruct (nth_error l (Z.to_nat (idx + Z.of_nat (List.length l)))) eqn:E; [eauto|].
  apply nth_error_None in E. lia.
Qed.

Lemma list_getitem_out_of_range {A} (l : list A) (idx : Z) :
  (idx < - Z.of_nat (List.length l) \/ Z.of_nat (List.length l) <= idx)%Z ->
  list_getitem l idx = Raise IndexError.
Proof.
  intros H. unfold list_getitem.
  destruct (Z.ltb_spec idx 0).
  - destruct (Z.ltb_spec (idx + Z.of_nat (List.length l)) 0); [reflexivity|lia].
  - destruct (Z.ltb_spec idx 0); [lia|].
    destruct (Z.leb_spec (Z.of_nat (List.length l)) idx); [reflexivity|lia].
Qed.

Lemma list_getitem_nil {A} (idx : Z) : list_getitem (@nil A) idx = Raise IndexError.
Proof. apply list_getitem_out_of_range. simpl. lia. Qed.

Lemma list_getitem_not_out_of_fuel {A} (l : list A) (idx : Z) :
  list_getitem l idx <> OutOfFuel.
Proof.
  unfold list_getitem.
  destruct (_ || _)%bool; [discriminate|].
  destruct (nth_error _ _); discriminate.
Qed.

(** ** The helpers in terms of the replies they receive *)

Section Equations.

Context {W : Type} (env : Env W).

Lemma match_element_idx_eq elements tgt w :
  match_element_idx env elements tgt w =
  match parse_selected_element_idx env elements tgt w with
  | (Done idx, w1) => (Ok idx, w1, [EvParseIndex elements tgt])
  | (Failed name, w1) => (Raise (External name), w1, [EvParseIndex elements tgt])
  end.
Proof.
  unfold match_element_idx, bind, call, ret.
  destruct (parse_selected_element_idx env elements tgt w) as [[idx|name] w1];
    reflexivity.
Qed.

Lemma match_clickable_eq elements tgt w :
  match_clickable env elements tgt w =
  match parse_selected_element_idx env (clickable_dicts elements) tgt w with
  | (Done idx, w1) =>
      (list_getitem elements idx, w1, [EvParseIndex (clickable_dicts elements) tgt])
  | (Failed name, w1) =>
      (Raise (External name), w1, [EvParseIndex (clickable_dicts elements) tgt])
  end.
Proof.
  unfold match_clickable, bind. rewrite match_element_idx_eq.
  destruct (parse_selected_element_idx env _ tgt w) as [[idx|name] w1];
    reflexivity.
Qed.

Lemma match_input_eq elements tgt w :
  match_input env elements tgt w =
  match parse_selected_element_idx env (input_dicts elements) tgt w with
  | (Done idx, w1) =>
      (list_getitem elements idx, w1, [EvParseIndex (input_dicts elements) tgt])
  | (Failed name, w1) =>
      (Raise (External name), w1, [EvParseIndex (input_dicts elements) tgt])
  end.
Proof.
  unfold match_input, bind. rewrite match_element_idx_eq.
  destruct (parse_selected_element_idx env _ tgt w) as [[idx|name] w1];
    reflexivity.
Qed.

Lemma execute_none a w :
  action_is (action a) NONE = true ->
  execute_web_action env a w = (Ok (termination_message a), w, []).
Proof.
  unfold execute_web_action, action_is.
  destruct (action a) as [[]|]; simpl; intros H; try discriminate; reflexivity.
Qed.

Lemma execute_wait a w :
  action_is (action a) WAIT = true ->
  execute_web_action env a w = (Ok "Waiting...", time_sleep env 3000 w, [EvSleep 3000]).
Proof.
  unfold execute_web_action, action_is.
  destruct (action a) as [[]|]; simpl; intros H; try discriminate; reflexivity.
Qed.

Lemma execute_foreign a raw w :
  action a = Foreign raw ->
  execute_web_action env a w =
  (Raise (ValueError ("Unsupported action type: " ++ raw)), w, []).
Proof.
  unfold execute_web_action. intros ->. reflexivity.
Qed.

End Equations.

(** Case analysis on every reply that blocks the evaluation of a goal. *)
Ltac case_reply :=
  match goal with
  | |- context [match ?op ?w with _ => _ end] =>
      lazymatch type of (op w) with
      | (reply _ * _)%type => destruct (op w) as [[?|?] ?]
      end
  | |- context [match list_getitem ?l ?i with _ => _ end] =>
      let E := fresh "E" in
      destruct (list_getitem l i) eqn:E;
      [ | | exfalso; exact (list_getitem_not_out_of_fuel _ _ E) ]
  end.

Ltac run_plugin :=
  unfold bind, call, emit, ret, lift, sleep;
  repeat (first [ rewrite match_clickable_eq | rewrite match_input_eq
                | case_reply ]; simpl).

Section Traces.

Context {W : Type} (env : Env W).

(** What a call of [execute_web_action] leaves on the trace: at most one
    action call, and none of the events a tick emits before it. *)
Lemma execute_trace a w r w' t :
  execute_web_action env a w = (r, w', t) ->
  r <> OutOfFuel /\
  count is_action_call t <= 1 /\
  count is_decision_call t = 0 /\
  count is_capture t = 0 /\
  count is_tick_pause t = 0.
Proof.
  unfold execute_web_action.
  destruct (action a) as [[]|]; simpl; run_plugin;
    intros H; inversion H; subst; clear H;
    unfold count; simpl; repeat split; try discriminate; lia.
Qed.

Lemma get_web_action_trace d w r w' t :
  get_web_action env d w = (r, w', t) ->
  r <> OutOfFuel /\
  count is_mutation t = 0 /\
  count is_action_call t = 0 /\
  count is_tick_pause t = 0 /\
  count is_decision_call t <= 1 /\
  count is_capture t <= 1 /\
  (forall a, r = Ok a -> count is_decision_call t = 1 /\ count is_capture t = 1).
Proof.
  unfold get_web_action, capture_current_page. run_plugin;
    intros H; inversion H; subst; clear H;
    unfold count; simpl; repeat split; try discriminate; lia.
Qed.

Lemma tick_eq d w :
  tick env d w =
  match get_web_action env d (time_sleep env 200 w) with
  | (Ok a, w1, t1) =>
      match execute_web_action env a w1 with
      | (Ok message, w2, t2) =>
          (Ok (a, message), w2, EvSleep 200 :: t1 ++ EvLog (Performing a) :: t2)
      | (Raise e, w2, t2) =>
          (Raise e, w2, EvSleep 200 :: t1 ++ EvLog (Performing a) :: t2)
      | (OutOfFuel, w2, t2) =>
          (OutOfFuel, w2, EvSleep 200 :: t1 ++ EvLog (Performing a) :: t2)
      end
  | (Raise e, w1, t1) => (Raise e, w1, EvSleep 200 :: t1)
  | (OutOfFuel, w1, t1) => (OutOfFuel, w1, EvSleep 200 :: t1)
  end%list.
Proof.
  unfold tick, bind, sleep, emit, ret.
  destruct (get_web_action env d (time_sleep env 200 w)) as [[[a|e|] w1] t1];
    simpl; try reflexivity.
  destruct (execute_web_action env a w1) as [[[m|e|] w2] t2];
    simpl; rewrite ?app_nil_r; reflexivity.
Qed.

(** One iteration of the loop, in terms of [tick]. *)
Lemma while_not_done_unfold fuel d ca w :
  while_not_done env (S fuel) d ca w =
  if max_attempts <? ca + 1 then (Ok exhausted_message, w, [])
  else match tick env d w with
       | (Ok (a, _), w1, t1) =>
           if action_is (action a) NONE then (Ok (termination_message a), w1, t1)
           else let '(r, w2, t2) := while_not_done env fuel d (ca + 1) w1 in
                (r, w2, t1 ++ t2)
       | (Raise e, w1, t1) => (Raise e, w1, t1)
       | (OutOfFuel, w1, t1) => (OutOfFuel, w1, t1)
       end%list.
Proof.
  cbn [while_not_done].
  destruct (max_attempts <? ca + 1); [reflexivity|].
  rewrite tick_eq. unfold bind, sleep, emit, ret.
  destruct (get_web_action env d (time_sleep env 200 w)) as [[[a|e|] w1] t1];
    simpl; try reflexivity.
  destruct (execute_web_action env a w1) as [[[m|e|] w2] t2];
    simpl; try reflexivity.
  destruct (action_is (action a) NONE); simpl.
  - rewrite app_nil_r. reflexivity.
  - destruct (while_not_done env fuel d (ca + 1) w2) as [[r w3] t3].
    simpl. rewrite <- !app_assoc. reflexivity.
Qed.

End Traces.

(** ** The loop *)

Section Loop.

Context {W : Type} (env : Env W).

Lemma tick_trace d w r w' t :
  tick env d w = (r, w', t) ->
  r <> OutOfFuel /\
  count is_action_call t <= 1 /\
  count is_decision_call t <= 1 /\
  count is_capture t <= 1 /\
  count is_tick_pause t = 1 /\
  (forall am, r = Ok am ->
     count is_decision_call t = 1 /\ count is_capture t = 1).
Proof.
  rewrite tick_eq.
  destruct (get_web_action env d (time_sleep env 200 w)) as [[rg w1] t1] eqn:G.
  destruct (get_web_action_trace env _ _ _ _ _ G)
    as (Hg & _ & Hga & Hgp & Hgd & Hgc & Hgok).
  destruct rg as [a|e|]; [|intros H; inversion H; subst; clear H..].
  - destruct (Hgok a eq_refl) as [Hd Hc].
    destruct (execute_web_action env a w1) as [[re w2] t2] eqn:E.
    destruct (execute_trace env _ _ _ _ _ E) as (He & Hea & Hed & Hec & Hep).
    destruct re as [m|e|]; [| |congruence];
      intros H; inversion H; subst; clear H;
      rewrite !count_cons, !count_app, !count_cons; simpl;
      repeat split; try discriminate; try lia; intros; lia.
  - rewrite !count_cons; simpl.
    repeat split; try discriminate; try lia; intros ? [=].
  - congruence.
Qed.

Lemma completed_ticks_counts d w acts w' t :
  completed_ticks env d w acts w' t ->
  count is_decision_call t = List.length acts /\
  count is_capture t = List.length acts /\
  count is_tick_pause t = List.length acts /\
  count is_action_call t <= List.length acts.
Proof.
  induction 1 as [w | w a m w1 t1 acts w2 t2 Ht _ IH].
  - repeat split; simpl; auto.
  - destruct (tick_trace _ _ _ _ _ Ht) as (_ & Ha & _ & _ & Hp & Hok).
    destruct (Hok _ eq_refl) as [Hd Hc].
    rewrite !count_app. simpl. lia.
Qed.

(** After [length acts] completed ticks, none of which decided [NONE], the
    loop is where it would be had it started from the world they leave,
    with the attempt counter advanced by as much. *)
Lemma while_after_ticks d w acts w1 t1 :
  completed_ticks env d w acts w1 t1 ->
  Forall not_none acts ->
  forall ca fuel,
    ca + List.length acts <= max_attempts ->
    while_not_done env (List.length acts + fuel) d ca w =
    (let '(r, w2, t2) := while_not_done env fuel d (ca + List.length acts) w1 in
     (r, w2, t1 ++ t2))%list.
Proof.
  induction 1 as [w | w a m w1 t1 acts w2 t2 Ht _ IH]; intros Hn ca fuel Hca.
  - simpl. rewrite Nat.add_0_r.
    destruct (while_not_done env fuel d ca w) as [[r w2] t2]. reflexivity.
  - inversion Hn as [|? ? Ha Hacts]; subst. simpl List.length in *.
    change (S (List.length acts) + fuel) with (S (List.length acts + fuel)).
    rewrite while_not_done_unfold.
    destruct (Nat.ltb_spec max_attempts (ca + 1)); [lia|].
    rewrite Ht. unfold not_none in Ha. rewrite Ha.
    rewrite (IH Hacts (ca + 1) fuel) by lia.
    replace (ca + 1 + List.length acts) with (ca + S (List.length acts)) by lia.
    destruct (while_not_done env fuel d (ca + S (List.length acts)) w2)
      as [[r w3] t3].
    rewrite app_assoc. reflexivity.
Qed.

(** Whatever the environment does, the loop stays within its budget. *)
Lemma while_not_done_bound d fuel :
  forall ca w r w' t,
    while_not_done env fuel d ca w = (r, w', t) ->
    count is_action_call t <= max_attempts - ca /\
    count is_decision_call t <= max_attempts - ca /\
    count is_capture t <= max_attempts - ca /\
    count is_tick_pause t <= max_attempts - ca /\
    (0 < fuel -> max_attempts < fuel + ca -> r <> OutOfFuel).
Proof.
  induction fuel as [|fuel IH]; intros ca w r w' t.
  - simpl. unfold lift. intros H; inversion H; subst.
    rewrite !count_nil. repeat split; lia.
  - rewrite while_not_done_unfold.
    destruct (Nat.ltb_spec max_attempts (ca + 1)) as [Hlt|Hge].
    + intros H; inversion H; subst.
      rewrite !count_nil. repeat split; try lia. discriminate.
    + destruct (tick env d w) as [[rt w1] t1] eqn:Ht.
      destruct (tick_trace _ _ _ _ _ Ht) as (Hf & Ha & Hd & Hc & Hp & _).
      destruct rt as [[a m]|e|]; [| |congruence].
      * destruct (action_is (action a) NONE).
        -- intros H; inversion H; subst.
           repeat split; try lia. discriminate.
        -- destruct (while_not_done env fuel d (ca + 1) w1) as [[r2 w2] t2] eqn:Hrec.
           destruct (IH _ _ _ _ _ Hrec) as (Ha2 & Hd2 & Hc2 & Hp2 & Hf2).
           intros H; inversion H; subst.
           rewrite !count_app. repeat split; try lia.
           intros _ Hfuel. apply Hf2; lia.
      * intros H; inversion H; subst.
        repeat split; try lia. discriminate.
Qed.



End Loop.

Section Runs.

Context {W : Type} (env : Env W).

Lemma run_ticks_sound n d :
  forall w acts w' t,
    run_ticks env n d w = Some (acts, w', t) -> completed_ticks env d w acts w' t.
Proof.
  induction n as [|n IH]; intros w acts w' t; simpl.
  - intros [= <- <- <-]. constructor.
  - destruct (tick env d w) as [[[[a m]|e|] w1] t1] eqn:Ht; try discriminate.
    destruct (run_ticks env n d w1) as [[[acts2 w2] t2]|] eqn:Hr; try discriminate.
    intros [= <- <- <-]. econstructor; eauto.
Qed.

(** The run that uses up its budget. *)
Lemma exhaustion_run d w acts w15 t15 fuel :
  completed_ticks env d w acts w15 t15 ->
  Forall not_none acts ->
  List.length acts = max_attempts ->
  max_attempts < fuel ->
  while_not_done env fuel d 0 w = (Ok exhausted_message, w15, t15).
Proof.
  intros Ht Hn Hlen Hfuel.
  replace fuel with (List.length acts + S (fuel - S max_attempts)) by lia.
  rewrite (while_after_ticks env d w acts w15 t15 Ht Hn) by lia.
  rewrite while_not_done_unfold.
  destruct (Nat.ltb_spec max_attempts (0 + List.length acts + 1)); [|lia].
  rewrite app_nil_r. reflexivity.
Qed.

(** The run that ends on a tick, after some complete ones. *)
Lemma last_tick_run d w acts w1 t1 fuel :
  completed_ticks env d w acts w1 t1 ->
  Forall not_none acts ->
  List.length acts < max_attempts ->
  max_attempts < fuel ->
  while_not_done env fuel d 0 w =
  match tick env d w1 with
  | (Ok (a, _), w2, t2) =>
      if action_is (action a) NONE
      then (Ok (termination_message a), w2, t1 ++ t2)
      else let '(r, w3, t3) :=
             while_not_done env (fuel - S (List.length acts)) d
                            (S (List.length acts)) w2 in
           (r, w3, t1 ++ t2 ++ t3)
  | (Raise e, w2, t2) => (Raise e, w2, t1 ++ t2)
  | (OutOfFuel, w2, t2) => (OutOfFuel, w2, t1 ++ t2)
  end%list.
Proof.
  intros Ht Hn Hlen Hfuel.
  replace fuel with (List.length acts + S (fuel - S (List.length acts))) at 1 by lia.
  rewrite (while_after_ticks env d w acts w1 t1 Ht Hn) by lia.
  rewrite while_not_done_unfold.
  destruct (Nat.ltb_spec max_attempts (0 + List.length acts + 1)); [lia|].
  destruct (tick env d w1) as [[[[a m]|e|] w2] t2]; try reflexivity.
  destruct (action_is (action a) NONE); [reflexivity|].
  replace (0 + List.length acts + 1) with (S (List.length acts)) by lia.
  destruct (while_not_done env _ d _ w2) as [[r w3] t3]. reflexivity.
Qed.

(** A tick whose decision is [NONE]. *)
Lemma none_tick d w a w2 tg :
  get_web_action env d (time_sleep env 200 w) = (Ok a, w2, tg) ->
  action_is (action a) NONE = true ->
  tick env d w =
  (Ok (a, termination_message a), w2, EvSleep 200 :: tg ++ [EvLog (Performing a)])%list.
Proof.
  intros Hg Ha. rewrite tick_eq, Hg, (execute_none env a w2 Ha). reflexivity.
Qed.

Lemma none_tick_run d w acts w1 t1 a w2 tg fuel :
  completed_ticks env d w acts w1 t1 ->
  Forall not_none acts ->
  List.length acts < max_attempts ->
  get_web_action env d (time_sleep env 200 w1) = (Ok a, w2, tg) ->
  action_is (action a) NONE = true ->
  max_attempts < fuel ->
  while_not_done env fuel d 0 w =
  (Ok (termination_message a), w2,
   t1 ++ EvSleep 200 :: tg ++ [EvLog (Performing a)])%list.
Proof.
  intros Ht Hn Hlen Hg Ha Hfuel.
  rewrite (last_tick_run d w acts w1 t1 fuel Ht Hn Hlen Hfuel).
  rewrite (none_tick d w1 a w2 tg Hg Ha), Ha. reflexivity.
Qed.

End Runs.

Lemma action_is_member (v : action_value) (k : WebActionType) :
  action_is v k = true <-> v = Member k.
Proof.
  destruct v as [[]|]; destruct k; simpl; split; intros H;
    try reflexivity; try discriminate; inversion H.
Qed.

(** Fifteen ticks on [WAIT] decisions. *)
Lemma fifteen_waits :
  completed_ticks scripted "x" (page (repeat wait_decision 20) [])
    (repeat wait_decision 15) (page (repeat wait_decision 5) [])
    (List.concat (repeat wait_tick_trace 15)).
Proof. apply (run_ticks_sound scripted 15). vm_compute. reflexivity. Defined.

Lemma fifteen_waits_not_none : Forall not_none (repeat wait_decision 15).
Proof. repeat constructor. Defined.

(** One tick on a [CLICK] decision. *)
Lemma one_click (rest : list WebAction) :
  completed_ticks scripted "x" (page (click_decision :: rest) [0%Z])
    [click_decision] (page rest []) click_tick_trace.
Proof. apply (run_ticks_sound scripted 1). reflexivity. Defined.

(** ** The tick budget *)


(** C9.  On the exhaustion path the run is exactly the fifteen ticks: the
    world and the trace it returns are those left by the fifteenth tick, so
    the trace holds exactly 15 inter-tick pauses, 15 captures and 15 calls of
    the decision service, and nothing of a sixteenth tick. *)
Theorem exhaustion_performs_no_sixteenth_tick {W} (env : Env W) (d : string)
        (w : W) (acts : list WebAction) (w15 : W) (t15 : list event) :
  completed_ticks env d w acts w15 t15 ->
  List.length acts = 15 ->
  Forall not_none acts ->
  perform_web_action env d w = (Ok exhausted_message, w15, t15) /\
  count is_tick_pause t15 = 15 /\
  count is_capture t15 = 15 /\
  count is_decision_call t15 = 15.
Proof.
  intros Ht Hlen Hn. split.
  - apply (exhaustion_run env d w acts w15 t15); auto;
      unfold max_attempts; lia.
  - destruct (completed_ticks_counts env d w acts w15 t15 Ht) as (Hd & Hc & Hp & _).
    rewrite Hd, Hc, Hp, Hlen. auto.
Qed.

(** An instance: twenty [WAIT] decisions are on offer, five are left. *)
Lemma exhaustion_performs_no_sixteenth_tick_witness :
  perform_web_action scripted "x" (page (repeat wait_decision 20) [])
  = (Ok exhausted_message, page (repeat wait_decision 5) [],
     List.concat (repeat wait_tick_trace 15)) /\
  count is_tick_pause (List.concat (repeat wait_tick_trace 15)) = 15 /\
  count is_capture (List.concat (repeat wait_tick_trace 15)) = 15 /\
  count is_decision_call (List.concat (repeat wait_tick_trace 15)) = 15.
Proof.
  apply (exhaustion_performs_no_sixteenth_tick scripted "x" _ _ _ _ fifteen_waits).
  - reflexivity.
  - exact fifteen_waits_not_none.
Defined.

(** ** Termination on a [NONE] decision *)

(** C2.  When a tick receives a decision of kind [NONE], after any number
    of complete ticks within the budget, [perform_web_action] returns exactly
    that decision's [termination_message], whatever its [target] and
    [content]; the executor does nothing in that tick, and the tick as a
    whole performs no click, no [send_keys] and no navigation. *)
Theorem none_decision_returns_termination_message {W} (env : Env W) (d : string)
        (w : W) (acts : list WebAction) (w1 : W) (t1 : list event)
        (a : WebAction) (w2 : W) (tg : list event) :
  completed_ticks env d w acts w1 t1 ->
  Forall not_none acts ->
  List.length acts < 15 ->
  get_web_action env d (time_sleep env 200 w1) = (Ok a, w2, tg) ->
  action a = Member NONE ->
  let last_tick := (EvSleep 200 :: tg ++ [EvLog (Performing a)])%list in
  perform_web_action env d w = (Ok (termination_message a), w2, (t1 ++ last_tick)%list) /\
  execute_web_action env a w2 = (Ok (termination_message a), w2, []) /\
  count is_mutation last_tick = 0.
Proof.
  intros Ht Hn Hlen Hg Ha last_tick.
  apply action_is_member in Ha.
  split; [|split].
  - apply (none_tick_run env d w acts w1 t1 a w2 tg); auto.
  - apply execute_none. exact Ha.
  - destruct (get_web_action_trace env _ _ _ _ _ Hg) as (_ & Hm & _).
    unfold last_tick. rewrite count_cons, count_app, Hm. reflexivity.
Qed.

(** An instance: a click on the cookie banner, then [NONE] with the address
    found. *)
Lemma none_decision_returns_termination_message_witness :
  perform_web_action scripted "x" (page [click_decision; email_decision] [0%Z])
  = (Ok "contact@example.com", page [] [],
     (click_tick_trace ++ none_tick_trace email_decision)%list) /\
  execute_web_action scripted email_decision (page [] [])
  = (Ok "contact@example.com", page [] [], []) /\
  count is_mutation (none_tick_trace email_decision) = 0.
Proof.
  apply (none_decision_returns_termination_message scripted "x" _ _ _ _
           email_decision (page [] [])
           [EvFindElement "body"; EvScreenshot body_element;
            EvParseAction "x" "data:image/png;base64,iVBORw0KGgo="]
           (one_click [email_decision])).
  - repeat constructor.
  - simpl. lia.
  - reflexivity.
  - reflexivity.
Defined.

(** C10.  The [termination_message] of a [NONE] decision is returned as it
    is, whatever it is: [perform_web_action] returns exactly that string, with
    no check that it is non-empty and nothing put in its place.  In
    particular, when it is the empty string, [perform_web_action] returns the
    empty string, not an exception and not another message. *)
Theorem empty_termination_message_is_returned {W} (env : Env W) (d : string)
        (w : W) (acts : list WebAction) (w1 : W) (t1 : list event)
        (a : WebAction) (w2 : W) (tg : list event) :
  completed_ticks env d w acts w1 t1 ->
  Forall not_none acts ->
  List.length acts < 15 ->
  get_web_action env d (time_sleep env 200 w1) = (Ok a, w2, tg) ->
  action a = Member NONE ->
  execute_web_action env a w2 = (Ok (termination_message a), w2, []) /\
  perform_web_action env d w =
  (Ok (termination_message a), w2,
   t1 ++ EvSleep 200 :: tg ++ [EvLog (Performing a)])%list /\
  (termination_message a = "" ->
   execute_web_action env a w2 = (Ok "", w2, []) /\
   fst (fst (perform_web_action env d w)) = Ok "").
Proof.
  intros Ht Hn Hlen Hg Ha.
  apply action_is_member in Ha.
  assert (Hexec : execute_web_action env a w2 = (Ok (termination_message a), w2, []))
    by (apply execute_none; exact Ha).
  assert (Hrun : perform_web_action env d w =
                 (Ok (termination_message a), w2,
                  t1 ++ EvSleep 200 :: tg ++ [EvLog (Performing a)])%list).
  { unfold perform_web_action.
    apply (none_tick_run env d w acts w1 t1 a w2 tg (S max_attempts)); auto. }
  split; [exact Hexec|]. split; [exact Hrun|].
  intros Hmsg. rewrite Hexec, Hrun, Hmsg. split; reflexivity.
Qed.

(** Instances: a [NONE] decision with an address to hand back, and one with
    nothing to say. *)
Lemma empty_termination_message_is_returned_witness :
  perform_web_action scripted "x" (page [email_decision] []) =
  (Ok "contact@example.com", page [] [], none_tick_trace email_decision) /\
  execute_web_action scripted silent_decision (page [] []) = (Ok "", page [] [], []) /\
  fst (fst (perform_web_action scripted "x" (page [silent_decision] []))) = Ok "".
Proof.
  split.
  - apply (empty_termination_message_is_returned scripted "x" _ [] _ [] email_decision
             (page [] [])
             [EvFindElement "body"; EvScreenshot body_element;
              EvParseAction "x" "data:image/png;base64,iVBORw0KGgo="]
             (ticks_nil scripted "x" _)).
    + constructor.
    + simpl. lia.
    + reflexivity.
    + reflexivity.
  - apply (empty_termination_message_is_returned scripted "x" _ [] _ [] silent_decision
             (page [] [])
             [EvFindElement "body"; EvScreenshot body_element;
              EvParseAction "x" "data:image/png;base64,iVBORw0KGgo="]
             (ticks_nil scripted "x" _)).
    + constructor.
    + simpl. lia.
    + reflexivity.
    + reflexivity.
    + reflexivity.
Defined.

(** ** The executor *)

Lemma list_getitem_raise {A} (l : list A) (idx : Z) (e : exn) :
  list_getitem l idx = Raise e -> e = IndexError.
Proof.
  unfold list_getitem.
  destruct (_ || _)%bool; [congruence|].
  destruct (nth_error _ _); congruence.
Qed.

Lemma string_app_assoc (s1 s2 s3 : string) :
  ((s1 ++ s2) ++ s3 = s1 ++ (s2 ++ s3))%string.
Proof. induction s1 as [|c s1 IH]; simpl; congruence. Qed.

Lemma string_app_nil_r (s : string) : (s ++ "")%string = s.
Proof. induction s as [|c s IH]; simpl; congruence. Qed.

Section Executor.

Context {W : Type} (env : Env W).

Lemma execute_click a w buttons w1 anchors w2 idx w3 element w4 :
  action a = Member CLICK ->
  driver_find_elements env "button" w = (Done buttons, w1) ->
  driver_find_elements env "a" w1 = (Done anchors, w2) ->
  parse_selected_element_idx env (clickable_dicts (buttons ++ anchors)) (target a) w2
  = (Done idx, w3) ->
  list_getitem (buttons ++ anchors) idx = Ok element ->
  element_click env element w3 = (Done tt, w4) ->
  execute_web_action env a w =
  (Ok ("Clicked the element: " ++ repr_WebElement element)%string, w4,
   [EvFindElements "button"; EvFindElements "a";
    EvParseIndex (clickable_dicts (buttons ++ anchors)) (target a);
    EvClick element]).
Proof.
  intros Ha Hb Hanch Hi Hg Hc. unfold execute_web_action. rewrite Ha. simpl.
  unfold bind, call, ret, lift. rewrite Hb. simpl. rewrite Hanch. simpl.
  rewrite match_clickable_eq, Hi, Hg. simpl. rewrite Hc. reflexivity.
Qed.

Lemma execute_type a w keys elements w1 idx w2 element w3 :
  (action a = Member TYPE_TEXT /\ keys = content a) \/
  (action a = Member TYPE_ENTER /\ keys = Keys_RETURN) ->
  driver_find_elements env "input" w = (Done elements, w1) ->
  parse_selected_element_idx env (input_dicts elements) (target a) w1
  = (Done idx, w2) ->
  list_getitem elements idx = Ok element ->
  element_send_keys env element keys w2 = (Done tt, w3) ->
  execute_web_action env a w =
  (Ok (if action_is (action a) TYPE_TEXT
       then "Typed '" ++ content a ++ "' in the input field: " ++ repr_WebElement element
       else "Pressed Enter in the input field: " ++ repr_WebElement element)%string,
   w3,
   [EvFindElements "input"; EvParseIndex (input_dicts elements) (target a);
    EvSendKeys element keys]).
Proof.
  intros [[Ha ->]|[Ha ->]] He Hi Hg Hs; unfold execute_web_action; rewrite Ha; simpl;
    unfold bind, call, ret, lift; rewrite He; simpl;
    rewrite match_input_eq, Hi, Hg; simpl; rewrite Hs; reflexivity.
Qed.

End Executor.

(** C8.  What the executor does for each kind.  [CLICK]: the pool is the
    buttons followed by the hyperlinks, the descriptors and the subscript are
    taken over that union, and the element found is clicked.  [TYPE_TEXT]
    and [TYPE_ENTER]: the pool is the [input] elements; [TYPE_TEXT] sends the
    decision's [content] and answers with a message that contains both the
    content and the element's representation; [TYPE_ENTER] sends
    [Keys.RETURN].  [WAIT]: the executor sleeps and answers ["Waiting..."],
    with no enumeration and no call of the index service. *)
Theorem execute_web_action_by_kind {W} (env : Env W) (a : WebAction) (w : W) :
  (action a = Member CLICK ->
   forall buttons w1 anchors w2 idx w3 element w4,
     driver_find_elements env "button" w = (Done buttons, w1) ->
     driver_find_elements env "a" w1 = (Done anchors, w2) ->
     parse_selected_element_idx env (clickable_dicts (buttons ++ anchors)) (target a) w2
     = (Done idx, w3) ->
     list_getitem (buttons ++ anchors) idx = Ok element ->
     element_click env element w3 = (Done tt, w4) ->
     execute_web_action env a w =
     (Ok ("Clicked the element: " ++ repr_WebElement element)%string, w4,
      [EvFindElements "button"; EvFindElements "a";
       EvParseIndex (clickable_dicts (buttons ++ anchors)) (target a);
       EvClick element])) /\
  (action a = Member TYPE_TEXT ->
   forall elements w1 idx w2 element w3,
     driver_find_elements env "input" w = (Done elements, w1) ->
     parse_selected_element_idx env (input_dicts elements) (target a) w1
     = (Done idx, w2) ->
     list_getitem elements idx = Ok element ->
     element_send_keys env element (content a) w2 = (Done tt, w3) ->
     exists message,
       execute_web_action env a w =
       (Ok message, w3,
        [EvFindElements "input"; EvParseIndex (input_dicts elements) (target a);
         EvSendKeys element (content a)]) /\
       message = ("Typed '" ++ content a ++ "' in the input field: "
                  ++ repr_WebElement element)%string /\
       contains message (content a) /\
       contains message (repr_WebElement element)) /\
  (action a = Member TYPE_ENTER ->
   forall elements w1 idx w2 element w3,
     driver_find_elements env "input" w = (Done elements, w1) ->
     parse_selected_element_idx env (input_dicts elements) (target a) w1
     = (Done idx, w2) ->
     list_getitem elements idx = Ok element ->
     element_send_keys env element Keys_RETURN w2 = (Done tt, w3) ->
     execute_web_action env a w =
     (Ok ("Pressed Enter in the input field: " ++ repr_WebElement element)%string, w3,
      [EvFindElements "input"; EvParseIndex (input_dicts elements) (target a);
       EvSendKeys element Keys_RETURN])) /\
  (action a = Member WAIT ->
   execute_web_action env a w = (Ok "Waiting...", time_sleep env 3000 w, [EvSleep 3000]) /\
   count is_resolution (snd (execute_web_action env a w)) = 0).
Proof.
  repeat split.
  - intros Ha; intros. eapply execute_click; eauto.
  - intros Ha elements w1 idx w2 element w3 He Hi Hg Hs.
    eexists. split; [|split; [reflexivity|split]].
    + rewrite (execute_type env a w (content a) elements w1 idx w2 element w3);
        auto.
      rewrite Ha. reflexivity.
    + exists "Typed '"%string,
        ("' in the input field: " ++ repr_WebElement element)%string.
      reflexivity.
    + exists ("Typed '" ++ content a ++ "' in the input field: ")%string, ""%string.
      rewrite string_app_nil_r, !string_app_assoc. reflexivity.
  - intros Ha elements w1 idx w2 element w3 He Hi Hg Hs.
    rewrite (execute_type env a w Keys_RETURN elements w1 idx w2 element w3); auto.
    rewrite Ha. reflexivity.
  - apply execute_wait. apply action_is_member. assumption.
  - rewrite execute_wait by (apply action_is_member; assumption). reflexivity.
Qed.

(** Instances on the page of the running examples; the click goes to the
    second element of the union, which is the anchor. *)
Lemma execute_web_action_by_kind_witness :
  execute_web_action scripted imprint_decision (page [] [1%Z]) =
  (Ok ("Clicked the element: " ++ repr_WebElement (hidden "a0" "Imprint"))%string,
   page [] [],
   [EvFindElements "button"; EvFindElements "a";
    EvParseIndex [[("idx", PInt 0); ("text", PStr "Accept cookies")]] "imprint link";
    EvClick (hidden "a0" "Imprint")]) /\
  (exists message,
     execute_web_action scripted type_decision (page [] [0%Z]) =
     (Ok message, page [] [],
      [EvFindElements "input";
       EvParseIndex [[("idx", PInt 0); ("name", PStr "q"); ("placeholder", PNone)]]
                    "search box";
       EvSendKeys (shown "q" "") "laptops"]) /\
     message = ("Typed 'laptops' in the input field: "
                ++ repr_WebElement (shown "q" ""))%string /\
     contains message "laptops" /\
     contains message (repr_WebElement (shown "q" ""))) /\
  execute_web_action scripted enter_decision (page [] [0%Z]) =
  (Ok ("Pressed Enter in the input field: " ++ repr_WebElement (shown "q" ""))%string,
   page [] [],
   [EvFindElements "input";
    EvParseIndex [[("idx", PInt 0); ("name", PStr "q"); ("placeholder", PNone)]]
                 "search box";
    EvSendKeys (shown "q" "") Keys_RETURN]) /\
  execute_web_action scripted wait_decision (page [] []) =
  (Ok "Waiting...", page [] [], [EvSleep 3000]).
Proof.
  split; [|split; [|split]].
  - apply (proj1 (execute_web_action_by_kind scripted imprint_decision (page [] [1%Z]))
             eq_refl [shown "b0" "Accept cookies"] (page [] [1%Z])
             [hidden "a0" "Imprint"] (page [] [1%Z]) 1%Z (page [] []));
      reflexivity.
  - apply (proj1 (proj2 (execute_web_action_by_kind scripted type_decision
                           (page [] [0%Z])))
             eq_refl [shown "q" ""] (page [] [0%Z]) 0%Z (page [] []));
      reflexivity.
  - apply (proj1 (proj2 (proj2 (execute_web_action_by_kind scripted enter_decision
                                   (page [] [0%Z]))))
             eq_refl [shown "q" ""] (page [] [0%Z]) 0%Z (page [] []));
      reflexivity.
  - apply (proj1 (proj2 (proj2 (proj2 (execute_web_action_by_kind scripted wait_decision
                                          (page [] []))))
             eq_refl)).
Defined.

(** C7.  A decision whose kind is no member of [WebActionType] makes the
    executor raise [ValueError("Unsupported action type: ...")] at once: no
    sleep, no enumeration, no action call and no result string, so the value
    is taken neither for [NONE] nor for [WAIT]; the exception ends the run of
    [perform_web_action].  For a decision whose kind is one of the five
    members that [ValueError] is never raised. *)
Theorem unsupported_action_raises {W} (env : Env W) (a : WebAction) (w : W) :
  (forall raw, action a = Foreign raw ->
     let unsupported := ValueError ("Unsupported action type: " ++ raw)%string in
     execute_web_action env a w = (Raise unsupported, w, []) /\
     forall d w0 acts w1 t1 tg,
       completed_ticks env d w0 acts w1 t1 ->
       Forall not_none acts ->
       List.length acts < 15 ->
       get_web_action env d (time_sleep env 200 w1) = (Ok a, w, tg) ->
       perform_web_action env d w0 =
       (Raise unsupported, w, t1 ++ EvSleep 200 :: tg ++ [EvLog (Performing a)])%list) /\
  (forall k, action a = Member k ->
     forall msg, fst (fst (execute_web_action env a w)) <> Raise (ValueError msg)).
Proof.
  split.
  - intros raw Ha unsupported. split.
    + apply execute_foreign. exact Ha.
    + intros d w0 acts w1 t1 tg Ht Hn Hlen Hg.
      unfold perform_web_action.
      rewrite (last_tick_run env d w0 acts w1 t1 (S max_attempts) Ht Hn Hlen)
        by (unfold max_attempts; lia).
      rewrite tick_eq, Hg, (execute_foreign env a raw w Ha). reflexivity.
  - intros k Ha msg. unfold execute_web_action. rewrite Ha.
    destruct k; simpl; run_plugin; try discriminate;
      match goal with
      | E : list_getitem _ _ = Raise ?e |- _ =>
          rewrite (list_getitem_raise _ _ _ E); discriminate
      end.
Qed.

(** Instances: a decision of kind ["scroll"], alone and as the second
    decision of a run, and a [CLICK] decision. *)
Lemma unsupported_action_raises_witness :
  execute_web_action scripted scroll_decision (page [] []) =
  (Raise (ValueError "Unsupported action type: scroll"), page [] [], []) /\
  perform_web_action scripted "x" (page [click_decision; scroll_decision] [0%Z]) =
  (Raise (ValueError "Unsupported action type: scroll"), page [] [],
   (click_tick_trace ++ none_tick_trace scroll_decision)%list) /\
  fst (fst (execute_web_action scripted click_decision (page [] [])))
  <> Raise (ValueError "Unsupported action type: WebActionType.CLICK").
Proof.
  destruct (unsupported_action_raises scripted scroll_decision (page [] []))
    as [Hforeign _].
  destruct (Hforeign "scroll"%string eq_refl) as [Hexec Hrun].
  split; [exact Hexec|split].
  - apply (Hrun "x"%string _ _ _ _
             [EvFindElement "body"; EvScreenshot body_element;
              EvParseAction "x" "data:image/png;base64,iVBORw0KGgo="]
             (one_click [scroll_decision])).
    + repeat constructor.
    + simpl. lia.
    + reflexivity.
  - apply (proj2 (unsupported_action_raises scripted click_decision (page [] []))
             CLICK eq_refl).
Defined.

(** ** The descriptor lists *)


Lemma enumerate_from_visible (l : list WebElement) :
  forall start,
    map snd (filter (fun ie => is_displayed (snd ie)) (enumerate_from start l)) =
    filter is_displayed l.
Proof.
  induction l as [|e l IH]; intros start; simpl; [reflexivity|].
  destruct (is_displayed e); simpl; rewrite IH; reflexivity.
Qed.




(** ** Element resolution *)

(** [resolver_in_range] fails: with two descriptors and a service that
    answers [-1], the resolver answers [-1]. *)
Lemma resolver_in_range_fails :
  ~ resolver_in_range scripted (clickable_dicts two_buttons) "the last one"
      (buttons_page [(-1)%Z]).
Proof. unfold resolver_in_range. simpl. lia. Qed.

(** And [match_clickable] then selects the last element. *)
Example negative_index_selects_from_the_end :
  match_clickable scripted two_buttons "the last one" (buttons_page [(-1)%Z]) =
  (Ok (shown "b1" "Decline"), buttons_page [],
   [EvParseIndex (clickable_dicts two_buttons) "the last one"]).
Proof. reflexivity. Qed.

(** C3, as the code has it.  [match_element_idx] hands back the index the
    service answered, whatever it is, and a failure of the service
    propagates.  [match_clickable] and [match_input] subscript the unfiltered
    element list with that index, the Python way: an index in
    [0, len(elements)) selects that position, an index in [-len(elements), 0)
    selects from the end, and any other index raises [IndexError]. *)
Theorem match_element_idx_is_unchecked {W} (env : Env W)
        (elements : list WebElement) (tgt : string) (w : W) :
  (forall descriptors,
     match_element_idx env descriptors tgt w =
     match parse_selected_element_idx env descriptors tgt w with
     | (Done idx, w1) => (Ok idx, w1, [EvParseIndex descriptors tgt])
     | (Failed name, w1) => (Raise (External name), w1, [EvParseIndex descriptors tgt])
     end) /\
  (forall idx w1,
     parse_selected_element_idx env (clickable_dicts elements) tgt w = (Done idx, w1) ->
     match_clickable env elements tgt w =
     (list_getitem elements idx, w1, [EvParseIndex (clickable_dicts elements) tgt])) /\
  (forall idx w1,
     parse_selected_element_idx env (input_dicts elements) tgt w = (Done idx, w1) ->
     match_input env elements tgt w =
     (list_getitem elements idx, w1, [EvParseIndex (input_dicts elements) tgt])) /\
  (forall idx,
     let n := Z.of_nat (List.length elements) in
     ((0 <= idx < n)%Z ->
      exists e, nth_error elements (Z.to_nat idx) = Some e /\
                list_getitem elements idx = Ok e) /\
     ((- n <= idx < 0)%Z ->
      exists e, nth_error elements (Z.to_nat (idx + n)) = Some e /\
                list_getitem elements idx = Ok e) /\
     ((idx < - n \/ n <= idx)%Z ->
      list_getitem elements idx = Raise IndexError)).
Proof.
  split; [|split; [|split]].
  - intros descriptors. apply match_element_idx_eq.
  - intros idx w1 H. rewrite match_clickable_eq, H. reflexivity.
  - intros idx w1 H. rewrite match_input_eq, H. reflexivity.
  - intros idx n. split; [|split].
    + apply list_getitem_nonneg.
    + apply list_getitem_negative.
    + apply list_getitem_out_of_range.
Qed.

(** An instance: two buttons, and a service that answers 7. *)
Lemma match_element_idx_is_unchecked_witness :
  match_clickable scripted two_buttons "the seventh" (buttons_page [7%Z]) =
  (list_getitem two_buttons 7, buttons_page [],
   [EvParseIndex (clickable_dicts two_buttons) "the seventh"]) /\
  list_getitem two_buttons 7 = Raise IndexError.
Proof.
  destruct (match_element_idx_is_unchecked scripted two_buttons "the seventh"
              (buttons_page [7%Z])) as (_ & Hclick & _ & Hget).
  split.
  - apply Hclick. reflexivity.
  - apply (Hget 7%Z). simpl. lia.
Defined.

(** ** Exceptions *)


Example open_web_page_raises :
  open_web_page scripted "https://example.com" offline_page =
  (Raise (External "WebDriverException"), offline_page,
   [EvLog (Navigating "https://example.com"); EvGet "https://example.com"]).
Proof. reflexivity. Qed.




(** ** An empty candidate pool *)

Example hidden_button_is_clicked :
  execute_web_action scripted menu_decision (hidden_menu_page [0%Z]) =
  (Ok ("Clicked the element: " ++ repr_WebElement (hidden "b0" "Menu"))%string,
   hidden_menu_page [],
   [EvFindElements "button"; EvFindElements "a"; EvParseIndex [] "the menu";
    EvClick (hidden "b0" "Menu")]).
Proof. reflexivity. Qed.

(** [fails_on_empty_pool] fails: with no visible button or anchor, and the
    index service answering 0, the executor clicks the hidden button and
    answers. *)
Lemma fails_on_empty_pool_fails :
  ~ fails_on_empty_pool scripted menu_decision (hidden_menu_page [0%Z]).
Proof.
  intros (e & w' & t & H). rewrite hidden_button_is_clicked in H. discriminate.
Qed.

Lemma no_visible_no_descriptor (elements : list WebElement) :
  Forall (fun e => is_displayed e = false) elements ->
  clickable_dicts elements = [] /\ input_dicts elements = [].
Proof.
  intros Hhidden.
  assert (E : filter (fun ie => is_displayed (snd ie)) (enumerate elements) = []).
  { assert (Hf : filter is_displayed elements = []).
    { induction Hhidden as [|e l He _ IH]; simpl; [reflexivity|].
      rewrite He. exact IH. }
    pose proof (enumerate_from_visible elements 0) as Hv.
    rewrite Hf in Hv. apply map_eq_nil in Hv. exact Hv. }
  unfold clickable_dicts, input_dicts. rewrite E. split; reflexivity.
Qed.

(** C6, as the code has it.  The executor makes no check for an empty
    pool.  When the page has no element of the required tag at all, the
    index service is still asked, with an empty descriptor list, and the
    executor then fails on the subscript with [IndexError] (or with the
    exception of the service), before any click or [send_keys] and without a
    second attempt.  When elements exist but none is displayed, the descriptor
    list is empty as well, and the element that the answered index designates
    in the unfiltered list is the one [click] is called on. *)
Theorem empty_pool_is_not_checked {W} (env : Env W) (a : WebAction) (w : W) :
  (action a = Member CLICK ->
   forall w1 w2,
     driver_find_elements env "button" w = (Done [], w1) ->
     driver_find_elements env "a" w1 = (Done [], w2) ->
     execute_web_action env a w =
     match parse_selected_element_idx env [] (target a) w2 with
     | (Done _, w3) =>
         (Raise IndexError, w3,
          [EvFindElements "button"; EvFindElements "a"; EvParseIndex [] (target a)])
     | (Failed name, w3) =>
         (Raise (External name), w3,
          [EvFindElements "button"; EvFindElements "a"; EvParseIndex [] (target a)])
     end) /\
  (action a = Member TYPE_TEXT \/ action a = Member TYPE_ENTER ->
   forall w1,
     driver_find_elements env "input" w = (Done [], w1) ->
     execute_web_action env a w =
     match parse_selected_element_idx env [] (target a) w1 with
     | (Done _, w2) =>
         (Raise IndexError, w2, [EvFindElements "input"; EvParseIndex [] (target a)])
     | (Failed name, w2) =>
         (Raise (External name), w2,
          [EvFindElements "input"; EvParseIndex [] (target a)])
     end) /\
  (action a = Member CLICK ->
   forall buttons w1 anchors w2 idx w3 element,
     driver_find_elements env "button" w = (Done buttons, w1) ->
     driver_find_elements env "a" w1 = (Done anchors, w2) ->
     Forall (fun e => is_displayed e = false) (buttons ++ anchors) ->
     parse_selected_element_idx env [] (target a) w2 = (Done idx, w3) ->
     list_getitem (buttons ++ anchors) idx = Ok element ->
     is_displayed element = false /\
     execute_web_action env a w =
     match element_click env element w3 with
     | (Done _, w4) =>
         (Ok ("Clicked the element: " ++ repr_WebElement element)%string, w4,
          [EvFindElements "button"; EvFindElements "a"; EvParseIndex [] (target a);
           EvClick element])
     | (Failed name, w4) =>
         (Raise (External name), w4,
          [EvFindElements "button"; EvFindElements "a"; EvParseIndex [] (target a);
           EvClick element])
     end).
Proof.
  split; [|split].
  - intros Ha w1 w2 Hb Hanch. unfold execute_web_action. rewrite Ha. simpl.
    unfold bind, call, ret, lift. rewrite Hb. simpl. rewrite Hanch. simpl.
    rewrite match_clickable_eq. cbn [app].
    change (clickable_dicts []) with (@nil pydict).
    destruct (parse_selected_element_idx env [] (target a) w2) as [[idx|name] w3];
      cbv beta iota; [rewrite list_getitem_nil|]; reflexivity.
  - intros Ha w1 He. unfold execute_web_action.
    destruct Ha as [Ha|Ha]; rewrite Ha; simpl;
      unfold bind, call, ret, lift; rewrite He; simpl;
      rewrite match_input_eq;
      change (input_dicts []) with (@nil pydict);
      (destruct (parse_selected_element_idx env [] (target a) w1) as [[idx|name] w2];
       cbv beta iota; [rewrite list_getitem_nil|]; reflexivity).
  - intros Ha buttons w1 anchors w2 idx w3 element Hb Hanch Hhidden Hi Hg.
    split.
    + unfold list_getitem in Hg.
      destruct (_ || _)%bool; [discriminate|].
      destruct (nth_error (buttons ++ anchors) _) as [e|] eqn:Hnth; [|discriminate].
      injection Hg as ->. apply nth_error_In in Hnth.
      rewrite Forall_forall in Hhidden. auto.
    + destruct (no_visible_no_descriptor _ Hhidden) as [Hdesc _].
      unfold execute_web_action. rewrite Ha. simpl.
      unfold bind, call, ret, lift. rewrite Hb. simpl. rewrite Hanch. simpl.
      rewrite match_clickable_eq, Hdesc, Hi, Hg. simpl.
      destruct (element_click env element w3) as [[[]|name] w4]; reflexivity.
Qed.

(** Instances: a page without elements, for a click and for typing, and a
    page whose only button is hidden. *)
Lemma empty_pool_is_not_checked_witness :
  execute_web_action scripted menu_decision (blank_page [0%Z]) =
  (Raise IndexError, blank_page [],
   [EvFindElements "button"; EvFindElements "a"; EvParseIndex [] "the menu"]) /\
  execute_web_action scripted type_decision (blank_page []) =
  (Raise (External "APIConnectionError"), blank_page [],
   [EvFindElements "input"; EvParseIndex [] "search box"]) /\
  (is_displayed (hidden "b0" "Menu") = false /\
   execute_web_action scripted menu_decision (hidden_menu_page [(-1)%Z]) =
   (Ok ("Clicked the element: " ++ repr_WebElement (hidden "b0" "Menu"))%string,
    hidden_menu_page [],
    [EvFindElements "button"; EvFindElements "a"; EvParseIndex [] "the menu";
     EvClick (hidden "b0" "Menu")])).
Proof.
  split; [|split].
  - apply (proj1 (empty_pool_is_not_checked scripted menu_decision (blank_page [0%Z]))
             eq_refl (blank_page [0%Z]) (blank_page [0%Z]));
      reflexivity.
  - apply (proj1 (proj2 (empty_pool_is_not_checked scripted type_decision
                           (blank_page [])))
             (or_introl eq_refl) (blank_page []));
      reflexivity.
  - apply (proj2 (proj2 (empty_pool_is_not_checked scripted menu_decision
                           (hidden_menu_page [(-1)%Z])))
             eq_refl [hidden "b0" "Menu"] (hidden_menu_page [(-1)%Z]) []
             (hidden_menu_page [(-1)%Z]) (-1)%Z (hidden_menu_page []));
      try reflexivity.
    repeat constructor.
Defined.

(** ** More on the run of [perform_web_action] *)

Lemma Forall_app_intro {A} (P : A -> Prop) (l1 l2 : list A) :
  Forall P l1 -> Forall P l2 -> Forall P (l1 ++ l2).
Proof. intros H1 H2. apply Forall_app. split; assumption. Qed.

Lemma total_sleep_app t1 t2 :
  total_sleep (t1 ++ t2) = (total_sleep t1 + total_sleep t2)%N.
Proof.
  induction t1 as [|ev t1 IH]; simpl; [reflexivity|].
  destruct ev; rewrite IH; lia.
Qed.

Section Stages.

Context {W : Type} (env : Env W).

(** The capture and the decision call, stage by stage. *)
Lemma get_web_action_stages d w r w' t :
  get_web_action env d w = (r, w', t) ->
  Forall (decision_call_for d) t /\
  count is_navigation t = 0 /\
  count is_index_call t = 0 /\
  total_sleep t = 0%N /\
  count is_decision_call t <= count is_capture t /\
  count is_capture t <= 1.
Proof.
  unfold get_web_action, capture_current_page. run_plugin;
    intros H; inversion H; subst; clear H;
    unfold count; simpl; repeat split; try lia;
    repeat constructor; simpl; eauto.
Qed.

(** The executor, stage by stage. *)
Lemma execute_stages a w r w' t :
  execute_web_action env a w = (r, w', t) ->
  Forall (fun ev => forall d, decision_call_for d ev) t /\
  count is_navigation t = 0 /\
  count is_action_call t <= count is_index_call t /\
  count is_index_call t <= 1 /\
  (total_sleep t <= 3000)%N /\
  (r = Raise IndexError -> count is_action_call t = 0 /\ count is_index_call t = 1).
Proof.
  unfold execute_web_action.
  destruct (action a) as [[]|]; simpl; run_plugin;
    intros H; inversion H; subst; clear H;
    unfold count; simpl; repeat split; try lia; try discriminate;
    repeat constructor; simpl; auto.
Qed.

Lemma tick_stages d w r w' t :
  tick env d w = (r, w', t) ->
  Forall (decision_call_for d) t /\
  count is_navigation t = 0 /\
  count is_action_call t <= count is_index_call t /\
  count is_index_call t <= count is_decision_call t /\
  count is_decision_call t <= count is_capture t /\
  count is_capture t <= count is_tick_pause t /\
  (total_sleep t <= 3200)%N.
Proof.
  rewrite tick_eq.
  destruct (get_web_action env d (time_sleep env 200 w)) as [[rg w1] t1] eqn:G.
  destruct (get_web_action_stages _ _ _ _ _ G) as (Gf & Gn & Gi & Gs & Gd & Gc).
  destruct (get_web_action_trace env _ _ _ _ _ G) as (_ & _ & Ga & Gp & _ & _ & Gok).
  destruct rg as [a|e|].
  - destruct (Gok a eq_refl) as [Hd Hc].
    destruct (execute_web_action env a w1) as [[re w2] t2] eqn:E.
    destruct (execute_stages _ _ _ _ _ E) as (Ef & En & Ea & Ei & Es & _).
    destruct (execute_trace env _ _ _ _ _ E) as (_ & _ & Ed & Ec & Ep).
    assert (Hf : Forall (decision_call_for d)
                        (EvSleep 200 :: t1 ++ EvLog (Performing a) :: t2)).
    { constructor; [exact I|]. apply Forall_app_intro; [exact Gf|].
      constructor; [exact I|].
      eapply Forall_impl; [|exact Ef]. intros ev Hev. apply Hev. }
    destruct re as [m|e|]; intros H; inversion H; subst; clear H;
      (split; [exact Hf|]);
      rewrite !count_cons, !count_app, !count_cons;
      cbn [total_sleep]; rewrite total_sleep_app; cbn [total_sleep];
      cbn -[N.add N.mul N.of_nat Nat.sub]; repeat split; lia.
  - intros H; inversion H; subst; clear H.
    split; [constructor; [exact I|exact Gf]|].
    rewrite !count_cons. cbn [total_sleep].
    cbn -[N.add N.mul N.of_nat Nat.sub]. repeat split; lia.
  - intros H; inversion H; subst; clear H.
    split; [constructor; [exact I|exact Gf]|].
    rewrite !count_cons. cbn [total_sleep].
    cbn -[N.add N.mul N.of_nat Nat.sub]. repeat split; lia.
Qed.

(** The same along the loop. *)
Lemma while_not_done_stages d fuel :
  forall ca w r w' t,
    while_not_done env fuel d ca w = (r, w', t) ->
    Forall (decision_call_for d) t /\
    count is_navigation t = 0 /\
    count is_action_call t <= count is_index_call t /\
    count is_index_call t <= count is_decision_call t /\
    count is_decision_call t <= count is_capture t /\
    count is_capture t <= count is_tick_pause t /\
    (total_sleep t <= 3200 * N.of_nat (max_attempts - ca))%N.
Proof.
  induction fuel as [|fuel IH]; intros ca w r w' t.
  - simpl. unfold lift. intros H; inversion H; subst.
    rewrite !count_nil. simpl. repeat split; try lia. constructor.
  - rewrite while_not_done_unfold.
    destruct (Nat.ltb_spec max_attempts (ca + 1)) as [Hlt|Hge].
    + intros H; inversion H; subst.
      rewrite !count_nil. simpl. repeat split; try lia. constructor.
    + destruct (tick env d w) as [[rt w1] t1] eqn:Ht.
      destruct (tick_stages _ _ _ _ _ Ht) as (Tf & Tn & Ta & Ti & Td & Tc & Ts).
      assert (Hone : (total_sleep t1 <= 3200 * N.of_nat (max_attempts - ca))%N) by lia.
      destruct rt as [[a m]|e|].
      * destruct (action_is (action a) NONE).
        -- intros H; inversion H; subst. repeat split; assumption.
        -- destruct (while_not_done env fuel d (ca + 1) w1) as [[r2 w2] t2] eqn:Hrec.
           destruct (IH _ _ _ _ _ Hrec) as (Rf & Rn & Ra & Ri & Rd & Rc & Rs).
           intros H; inversion H; subst.
           rewrite !count_app, total_sleep_app.
           split; [apply Forall_app_intro; assumption|].
           repeat split; try lia.
      * intros H; inversion H; subst. repeat split; assumption.
      * intros H; inversion H; subst. repeat split; assumption.
Qed.

End Stages.

Lemma count_orb_le (p q : event -> bool) (t : list event) :
  count (fun ev => p ev || q ev) t <= count p t + count q t.
Proof.
  induction t as [|ev t IH]; [reflexivity|].
  rewrite !count_cons. destruct (p ev), (q ev); simpl; lia.
Qed.

Section MoreRuns.

Context {W : Type} (env : Env W).

Lemma tick_logs_decision d w a m w1 t1 :
  tick env d w = (Ok (a, m), w1, t1) -> In (EvLog (Performing a)) t1.
Proof.
  rewrite tick_eq.
  destruct (get_web_action env d (time_sleep env 200 w)) as [[[a0|e|] wg] tg];
    try discriminate.
  destruct (execute_web_action env a0 wg) as [[[m0|e|] we] te]; try discriminate.
  intros [= <- <- <- <-]. right. apply in_or_app. right. left. reflexivity.
Qed.

Lemma while_not_done_returns d fuel :
  forall ca w s w' t,
    while_not_done env fuel d ca w = (Ok s, w', t) ->
    s = exhausted_message \/
    exists a, In (EvLog (Performing a)) t /\ action a = Member NONE /\
              s = termination_message a.
Proof.
  induction fuel as [|fuel IH]; intros ca w s w' t.
  - simpl. unfold lift. discriminate.
  - rewrite while_not_done_unfold.
    destruct (max_attempts <? ca + 1).
    + intros [= <- <- <-]. left. reflexivity.
    + destruct (tick env d w) as [[[[a m]|e|] w1] t1] eqn:Ht; try discriminate.
      destruct (action_is (action a) NONE) eqn:Ha.
      * intros [= <- <- <-]. right. exists a.
        split; [exact (tick_logs_decision _ _ _ _ _ _ Ht)|].
        split; [apply action_is_member; exact Ha|reflexivity].
      * destruct (while_not_done env fuel d (ca + 1) w1) as [[r2 w2] t2] eqn:Hrec.
        intros [= -> <- <-].
        destruct (IH _ _ _ _ _ Hrec) as [Hex|(a' & Hin & Hk & Hs)]; [left; exact Hex|].
        right. exists a'. split; [apply in_or_app; right; exact Hin|auto].
Qed.

End MoreRuns.

(** X1.  Along every run of [perform_web_action], whatever the
    driver and the services answer, each stage happens at most as often as the
    stage before it: action calls, index-service calls, decision calls,
    captures, inter-tick pauses, and there are at most 15 of those.  So the
    reasoning service is called at most 30 times in one invocation. *)
Theorem perform_web_action_stage_order {W} (env : Env W) (d : string) (w : W) :
  let t := snd (perform_web_action env d w) in
  count is_action_call t <= count is_index_call t /\
  count is_index_call t <= count is_decision_call t /\
  count is_decision_call t <= count is_capture t /\
  count is_capture t <= count is_tick_pause t /\
  count is_tick_pause t <= 15 /\
  count is_service_call t <= 30.
Proof.
  unfold perform_web_action.
  destruct (while_not_done env (S max_attempts) d 0 w) as [[r w'] t] eqn:Hrun.
  destruct (while_not_done_stages env d _ _ _ _ _ _ Hrun)
    as (_ & _ & Ha & Hi & Hd & Hc & _).
  destruct (while_not_done_bound env d _ _ _ _ _ _ Hrun) as (_ & _ & _ & Hp & _).
  change (max_attempts - 0) with 15 in Hp. cbn [snd].
  pose proof (count_orb_le is_decision_call is_index_call t) as Hs.
  unfold is_service_call. repeat split; lia.
Qed.

(** X3.  [perform_web_action] never navigates: no run calls [driver.get],
    so the page changes only through clicks and keys (and on its own). *)
Theorem perform_web_action_never_navigates {W} (env : Env W) (d : string) (w : W) :
  count is_navigation (snd (perform_web_action env d w)) = 0.
Proof.
  unfold perform_web_action.
  destruct (while_not_done env (S max_attempts) d 0 w) as [[r w'] t] eqn:Hrun.
  apply (while_not_done_stages env d _ _ _ _ _ _ Hrun).
Qed.

(** X4.  One invocation of [perform_web_action] sleeps 48 seconds at
    most: fifteen pauses of 0.2 s and fifteen waits of 3 s. *)
Theorem perform_web_action_sleeps_at_most_48s {W} (env : Env W) (d : string) (w : W) :
  (total_sleep (snd (perform_web_action env d w)) <= 48000)%N.
Proof.
  unfold perform_web_action.
  destruct (while_not_done env (S max_attempts) d 0 w) as [[r w'] t] eqn:Hrun.
  destruct (while_not_done_stages env d _ _ _ _ _ _ Hrun) as (_ & _ & _ & _ & _ & _ & Hs).
  exact Hs.
Qed.

(** The bound is reached when every decision is [WAIT]. *)
Example always_wait_sleeps_48s :
  total_sleep (snd (perform_web_action scripted "x" (page (repeat wait_decision 20) [])))
  = 48000%N.
Proof. vm_compute. reflexivity. Qed.

(** X5.  A string that [perform_web_action] returns is the exhaustion
    message or the [termination_message] of a [NONE] decision of that run.
    The strings that [execute_web_action] answers for the other kinds
    (["Clicked the element: ..."], ["Waiting..."]) are dropped. *)
Theorem returned_string_is_exhaustion_or_termination {W} (env : Env W)
        (d : string) (w : W) (s : string) (w' : W) (t : list event) :
  perform_web_action env d w = (Ok s, w', t) ->
  s = exhausted_message \/
  exists a, In (EvLog (Performing a)) t /\ action a = Member NONE /\
            s = termination_message a.
Proof. apply while_not_done_returns. Qed.

(** An instance: the run that clicks the cookie banner and then stops. *)
Lemma returned_string_is_exhaustion_or_termination_witness :
  "contact@example.com" = exhausted_message \/
  exists a,
    In (EvLog (Performing a)) (click_tick_trace ++ none_tick_trace email_decision) /\
    action a = Member NONE /\ "contact@example.com" = termination_message a.
Proof.
  apply (returned_string_is_exhaustion_or_termination scripted "x"
           (page [click_decision; email_decision] [0%Z]) _ (page [] [])).
  reflexivity.
Defined.

(** X6.  When [execute_web_action] raises [IndexError], it does so on
    the subscript: after exactly one call of the index service, and before
    any [click] or [send_keys]. *)
Theorem index_error_precedes_any_action {W} (env : Env W) (a : WebAction)
        (w w' : W) (t : list event) :
  execute_web_action env a w = (Raise IndexError, w', t) ->
  count is_index_call t = 1 /\ count is_action_call t = 0.
Proof.
  intros H. destruct (execute_stages env _ _ _ _ _ H) as (_ & _ & _ & _ & _ & Hi).
  destruct (Hi eq_refl). auto.
Qed.

(** An instance: one button, and a service that answers 3. *)
Lemma index_error_precedes_any_action_witness :
  count is_index_call
    [EvFindElements "button"; EvFindElements "a"; EvParseIndex [] "the menu"] = 1 /\
  count is_action_call
    [EvFindElements "button"; EvFindElements "a"; EvParseIndex [] "the menu"] = 0.
Proof.
  apply (index_error_precedes_any_action scripted menu_decision
           (hidden_menu_page [3%Z]) (hidden_menu_page [])).
  reflexivity.
Defined.

(** ** More on the descriptor lists *)



Lemma visible_positions_sorted (l : list WebElement) :
  forall start,
    let ps := map fst (filter (fun ie => is_displayed (snd ie)) (enumerate_from start l)) in
    StronglySorted lt ps /\
    Forall (fun i => start <= i < start + List.length l) ps.
Proof.
  induction l as [|e l IH]; intros start; simpl.
  - split; constructor.
  - destruct (IH (S start)) as [Hs Hb].
    assert (Hb' : Forall (fun i => start <= i < start + S (List.length l))
                    (map fst (filter (fun ie => is_displayed (snd ie))
                                     (enumerate_from (S start) l)))).
    { eapply Forall_impl; [|exact Hb]. simpl. intros i Hi. lia. }
    destruct (is_displayed e); simpl.
    + split.
      * constructor; [exact Hs|].
        eapply Forall_impl; [|exact Hb]. simpl. intros i Hi. lia.
      * constructor; [lia|exact Hb'].
    + split; assumption.
Qed.


(** X7.  The indices that the descriptors of [match_clickable] and
    [match_input] carry are strictly increasing and all below
    [len(elements)], one for each displayed element: no two descriptors share
    an index, and every index that is offered is a valid subscript of the
    unfiltered list. *)
Theorem descriptor_indices_are_increasing_and_valid (elements : list WebElement) :
  map (dict_get "idx") (clickable_dicts elements) =
  map (fun i => Some (PInt (Z.of_nat i))) (descriptor_positions elements) /\
  map (dict_get "idx") (input_dicts elements) =
  map (fun i => Some (PInt (Z.of_nat i))) (descriptor_positions elements) /\
  StronglySorted lt (descriptor_positions elements) /\
  Forall (fun i => i < List.length elements) (descriptor_positions elements) /\
  List.length (descriptor_positions elements) =
  List.length (filter is_displayed elements).
Proof.
  unfold descriptor_positions, clickable_dicts, input_dicts, enumerate.
  destruct (visible_positions_sorted elements 0) as [Hs Hb].
  repeat split.
  - rewrite !map_map. reflexivity.
  - rewrite !map_map. reflexivity.
  - exact Hs.
  - eapply Forall_impl; [|exact Hb]. simpl. intros i Hi. lia.
  - rewrite <- (enumerate_from_visible elements 0), !length_map. reflexivity.
Qed.




(** ** [extract_data_from_site] *)

Lemma len_String c s : len (String c s) = N.succ (len s).
Proof. unfold len. simpl. lia. Qed.

Lemma slice_to_len s : forall n, len (slice_to n s) = N.min n (len s).
Proof.
  induction s as [|c s IH]; intros n; simpl.
  - unfold len. simpl. lia.
  - destruct (N.eqb_spec n 0) as [->|Hn].
    + unfold len. simpl. lia.
    + rewrite !len_String, IH. lia.
Qed.

Lemma slice_to_prefix s : forall n, exists rest, s = (slice_to n s ++ rest)%string.
Proof.
  induction s as [|c s IH]; intros n; simpl.
  - exists ""%string. reflexivity.
  - destruct (n =? 0)%N.
    + exists (String c s). reflexivity.
    + destruct (IH (N.pred n)) as [rest Hrest].
      exists rest. simpl. congruence.
Qed.

Lemma slice_to_all s : forall n, (len s <= n)%N -> slice_to n s = s.
Proof.
  induction s as [|c s IH]; intros n Hn; simpl; [reflexivity|].
  rewrite len_String in Hn.
  destruct (N.eqb_spec n 0) as [->|Hz]; [lia|].
  rewrite IH by lia. reflexivity.
Qed.

Lemma text_slice_to_len text :
  forall n, text_len (text_slice_to n text) = N.min n (text_len text).
Proof.
  unfold text_len.
  induction text as [|c text IH]; intros n; simpl List.length.
  - simpl. lia.
  - cbn [text_slice_to]. destruct (N.eqb_spec n 0) as [->|Hn].
    + simpl. lia.
    + simpl List.length. rewrite !Nat2N.inj_succ, IH. lia.
Qed.

Lemma text_slice_to_prefix text :
  forall n, exists rest, text = (text_slice_to n text ++ rest)%list.
Proof.
  induction text as [|c text IH]; intros n; simpl.
  - exists []. reflexivity.
  - destruct (n =? 0)%N.
    + exists (c :: text). reflexivity.
    + destruct (IH (N.pred n)) as [rest Hrest].
      exists rest. simpl. congruence.
Qed.

Lemma text_slice_to_all text :
  forall n, (text_len text <= n)%N -> text_slice_to n text = text.
Proof.
  unfold text_len.
  induction text as [|c text IH]; intros n Hn; [reflexivity|].
  simpl List.length in Hn. rewrite Nat2N.inj_succ in Hn.
  cbn [text_slice_to]. destruct (N.eqb_spec n 0) as [->|Hz]; [lia|].
  rewrite IH by lia. reflexivity.
Qed.

Lemma cap_source_code_slice text : cap_source_code text = text_slice_to 300000 text.
Proof.
  unfold cap_source_code.
  destruct (N.ltb_spec 300000 (text_len text)); [reflexivity|].
  symmetry. apply text_slice_to_all. assumption.
Qed.

Lemma text_len_repeat (c : N) (n : nat) : text_len (repeat c n) = N.of_nat n.
Proof. unfold text_len. rewrite repeat_length. reflexivity. Qed.

(** X10.  The source code handed to the service is the page text cut to
    its first 300000 code points, as Python counts the characters of a
    [str]: a prefix of the text, of length [min(300000, len(text))], and the
    text itself when that is not longer, whatever the code points are (200000
    times a letter with an accent is not cut).  The guard
    [len(source_code) > 300_000] changes nothing: the slice alone gives the
    same text. *)
Theorem cap_source_code_is_a_bounded_prefix (source_code : pytext) :
  cap_source_code source_code = text_slice_to 300000 source_code /\
  text_len (cap_source_code source_code) = N.min 300000 (text_len source_code) /\
  (exists rest, source_code = (cap_source_code source_code ++ rest)%list) /\
  cap_source_code (cap_source_code source_code) = cap_source_code source_code /\
  cap_source_code (repeat 233%N (N.to_nat 200000)) = repeat 233%N (N.to_nat 200000).
Proof.
  rewrite !cap_source_code_slice. split; [|split; [|split; [|split]]].
  - reflexivity.
  - apply text_slice_to_len.
  - apply text_slice_to_prefix.
  - apply text_slice_to_all. rewrite text_slice_to_len. lia.
  - apply text_slice_to_all. rewrite text_len_repeat, N2Nat.id. lia.
Qed.

Lemma web_count_app p t1 t2 :
  web_count p (t1 ++ t2) = web_count p t1 + web_count p t2.
Proof. unfold web_count. rewrite filter_app, length_app. reflexivity. Qed.

Section Extraction.

Context {W : Type} (env : WebEnv W).

(** One iteration of the loop, in terms of the two replies. *)
Lemma while_no_data_unfold fuel fields url step w :
  while_no_data env (S fuel) fields url step w =
  if max_steps <? step + 1 then (Returns (Message too_many_steps), w, [])
  else
    match requests_get env url [] [] w with
    | (Failed name, w1) =>
        (Raises (WebExternal name), w1, [WebLog (step + 1) url; RequestsGet url [] []])
    | (Done response, w1) =>
        let source_code := cap_source_code (text_of response) in
        match parse_ParseResult env fields source_code w1 with
        | (Failed name, w2) =>
            (Raises (WebExternal name), w2,
             [WebLog (step + 1) url; RequestsGet url [] []; ParseSite fields source_code])
        | (Done result, w2) =>
            if 0 <? List.length (extracted_data result) then
              (Returns (Data (extracted_data result)), w2,
               [WebLog (step + 1) url; RequestsGet url [] [];
                ParseSite fields source_code])
            else if negb (String.eqb (next_url result) url) then
              let '(r, w3, t3) :=
                while_no_data env fuel fields (next_url result) (step + 1) w2 in
              (r, w3,
               WebLog (step + 1) url :: RequestsGet url [] [] ::
               ParseSite fields source_code :: t3)
            else
              (Returns (Message not_found), w2,
               [WebLog (step + 1) url; RequestsGet url [] [];
                ParseSite fields source_code])
        end
    end.
Proof.
  cbn [while_no_data].
  destruct (max_steps <? step + 1); [reflexivity|].
  unfold web_bind, web_emit, web_call, web_ret.
  destruct (requests_get env url [] [] w) as [[response|name] w1]; [|reflexivity].
  cbv zeta.
  destruct (parse_ParseResult env fields (cap_source_code (text_of response)) w1)
    as [[result|name] w2]; [|reflexivity].
  destruct (0 <? List.length (extracted_data result)); [reflexivity|].
  destruct (negb (String.eqb (next_url result) url)); [|reflexivity].
  destruct (while_no_data env fuel fields (next_url result) (step + 1) w2)
    as [[r w3] t3].
  reflexivity.
Qed.

(** What holds of every run of the loop. *)
Lemma while_no_data_invariant fields fuel :
  forall url step w r w' t,
    while_no_data env fuel fields url step w = (r, w', t) ->
    web_count is_fetch t <= max_steps - step /\
    web_count is_site_call t <= web_count is_fetch t /\
    Forall (site_call_for fields) t /\
    (0 < fuel -> max_steps < fuel + step -> r <> Unfinished) /\
    (forall records, r = Returns (Data records) -> records <> []) /\
    (forall s, r = Returns (Message s) -> s = too_many_steps \/ s = not_found).
Proof.
  assert (Hcap : forall s, (text_len (cap_source_code s) <= 300000)%N).
  { intros s. rewrite cap_source_code_slice, text_slice_to_len. lia. }
  induction fuel as [|fuel IH]; intros url step w r w' t.
  - simpl. unfold web_lift. intros [= <- <- <-].
    repeat split; try (unfold web_count; cbn -[Nat.sub max_steps]; lia); try discriminate.
    constructor.
  - rewrite while_no_data_unfold.
    destruct (Nat.ltb_spec max_steps (step + 1)) as [Hlt|Hge].
    { intros [= <- <- <-].
      repeat split; try (unfold web_count; cbn -[Nat.sub max_steps]; lia); try discriminate;
        try solve [constructor].
      intros s [= <-]. left. reflexivity. }
    destruct (requests_get env url [] [] w) as [[response|name] w1].
    2:{ intros [= <- <- <-].
        repeat split; try (unfold web_count; cbn -[Nat.sub max_steps]; lia); try discriminate;
          try solve [repeat constructor]. }
    cbv zeta.
    destruct (parse_ParseResult env fields (cap_source_code (text_of response)) w1)
      as [[result|name] w2].
    2:{ intros [= <- <- <-].
        repeat split; try (unfold web_count; cbn -[Nat.sub max_steps]; lia); try discriminate.
        repeat constructor; simpl; auto. }
    destruct (Nat.ltb_spec 0 (List.length (extracted_data result))) as [Hdata|Hnone].
    { intros [= <- <- <-].
      repeat split; try (unfold web_count; cbn -[Nat.sub max_steps]; lia); try discriminate;
        try solve [repeat constructor; simpl; auto].
      intros records [= <-] Hnil. rewrite Hnil in Hdata. simpl in Hdata. lia. }
    destruct (negb (String.eqb (next_url result) url)).
    2:{ intros [= <- <- <-].
        repeat split; try (unfold web_count; cbn -[Nat.sub max_steps]; lia); try discriminate;
          try solve [repeat constructor; simpl; auto].
        intros s [= <-]. right. reflexivity. }
    destruct (while_no_data env fuel fields (next_url result) (step + 1) w2)
      as [[r3 w3] t3] eqn:Hrec.
    destruct (IH _ _ _ _ _ _ Hrec) as (Hf & Hs & Hall & Hfuel & Hd & Hm).
    intros [= <- <- <-].
    change (WebLog (step + 1) url :: RequestsGet url [] [] ::
            ParseSite fields (cap_source_code (text_of response)) :: t3)
      with ([WebLog (step + 1) url; RequestsGet url [] [];
             ParseSite fields (cap_source_code (text_of response))] ++ t3)%list.
    rewrite !web_count_app.
    split; [unfold web_count in *; cbn -[Nat.sub max_steps]; lia|].
    split; [unfold web_count in *; cbn -[Nat.sub max_steps]; lia|].
    split; [apply Forall_app_intro; [repeat constructor; simpl; auto|exact Hall]|].
    split; [intros _ Hlt; apply Hfuel; lia|].
    split; assumption.
Qed.

Lemma while_after_moves fields step url w n url' w' t :
  moved env fields step url w n url' w' t ->
  forall fuel,
    step + n <= max_steps ->
    while_no_data env (n + fuel) fields url step w =
    (let '(r, w2, t2) := while_no_data env fuel fields url' (step + n) w' in
     (r, w2, t ++ t2))%list.
Proof.
  induction 1 as [step url w | step url w response w1 result w2 n url' w' t
                                 Hget Hparse Hdata Hurl _ IH];
    intros fuel Hle.
  - simpl. rewrite Nat.add_0_r.
    destruct (while_no_data env fuel fields url step w) as [[r w2] t2]. reflexivity.
  - change (S n + fuel) with (S (n + fuel)).
    rewrite while_no_data_unfold.
    destruct (Nat.ltb_spec max_steps (step + 1)); [lia|].
    rewrite Hget. cbv zeta. rewrite Hparse, Hdata. simpl List.length.
    change (0 <? 0) with false. cbv iota.
    destruct (String.eqb_spec (next_url result) url) as [E|_]; [contradiction|].
    cbn [negb]. rewrite (IH fuel) by lia.
    replace (step + 1 + n) with (step + S n) by lia.
    destruct (while_no_data env fuel fields url' (step + S n) w') as [[r w3] t3].
    reflexivity.
Qed.

End Extraction.

Section ExtractionRuns.

Context {W : Type} (env : WebEnv W).

Lemma while_no_data_more_fuel fields fuel :
  forall url step w r w' t extra,
    while_no_data env fuel fields url step w = (r, w', t) ->
    r <> Unfinished ->
    while_no_data env (fuel + extra) fields url step w = (r, w', t).
Proof.
  induction fuel as [|fuel IH]; intros url step w r w' t extra.
  - simpl. unfold web_lift. intros [= <- <- <-]. congruence.
  - change (S fuel + extra) with (S (fuel + extra)).
    rewrite !while_no_data_unfold.
    destruct (max_steps <? step + 1); [auto|].
    destruct (requests_get env url [] [] w) as [[response|name] w1]; [|auto].
    cbv zeta.
    destruct (parse_ParseResult env fields (cap_source_code (text_of response)) w1)
      as [[result|name] w2]; [|auto].
    destruct (0 <? List.length (extracted_data result)); [auto|].
    destruct (negb (String.eqb (next_url result) url)); [|auto].
    destruct (while_no_data env fuel fields (next_url result) (step + 1) w2)
      as [[r3 w3] t3] eqn:Hrec.
    intros [= <- <- <-] Hr.
    rewrite (IH _ _ _ _ _ _ extra Hrec Hr). reflexivity.
Qed.

Lemma extract_after_moves fields url w n url' w' t :
  moved env fields 0 url w n url' w' t ->
  n <= max_steps ->
  extract_data_from_site env url fields w =
  (let '(r, w2, t2) := while_no_data env (S max_steps - n) fields url' n w' in
   (r, w2, t ++ t2))%list.
Proof.
  intros Hm Hn. unfold extract_data_from_site.
  replace (S max_steps) with (n + (S max_steps - n)) at 1 by lia.
  rewrite (while_after_moves env fields 0 url w n url' w' t Hm) by lia.
  reflexivity.
Qed.

End ExtractionRuns.

(** X11.  Whatever the sites and the service answer,
    [extract_data_from_site] ends within its three steps: it fetches at most
    three pages, calls the service at most once for each page fetched, always
    with the fields it was given and with a source of at most 300000 code
    points; a larger iteration budget gives the same run. *)
Theorem extract_data_from_site_stays_in_bounds {W} (env : WebEnv W)
        (url : string) (fields : list string) (w : W) :
  let run := extract_data_from_site env url fields w in
  fst (fst run) <> Unfinished /\
  (forall extra, while_no_data env (S max_steps + extra) fields url 0 w = run) /\
  web_count is_fetch (snd run) <= 3 /\
  web_count is_site_call (snd run) <= web_count is_fetch (snd run) /\
  Forall (site_call_for fields) (snd run).
Proof.
  unfold extract_data_from_site.
  destruct (while_no_data env (S max_steps) fields url 0 w) as [[r w'] t] eqn:Hrun.
  destruct (while_no_data_invariant env fields _ _ _ _ _ _ _ Hrun)
    as (Hf & Hs & Hall & Hfuel & _).
  assert (Hr : r <> Unfinished) by (apply Hfuel; unfold max_steps; lia).
  cbn [fst snd]. split; [exact Hr|]. split; [|split; [|split]].
  - intros extra. apply while_no_data_more_fuel; assumption.
  - unfold max_steps in Hf. lia.
  - exact Hs.
  - exact Hall.
Qed.

(** X12.  [extract_data_from_site] never returns an empty list: what it
    returns is a list with at least one record, or one of its two messages. *)
Theorem extract_data_from_site_result {W} (env : WebEnv W)
        (url : string) (fields : list string) (w : W) (x : extraction) :
  fst (fst (extract_data_from_site env url fields w)) = Returns x ->
  match x with
  | Data records => records <> []
  | Message s => s = too_many_steps \/ s = not_found
  end.
Proof.
  unfold extract_data_from_site.
  destruct (while_no_data env (S max_steps) fields url 0 w) as [[r w'] t] eqn:Hrun.
  destruct (while_no_data_invariant env fields _ _ _ _ _ _ _ Hrun)
    as (_ & _ & _ & _ & Hd & Hm).
  cbn [fst]. intros ->. destruct x; auto.
Qed.

(** An instance: the record is found on the second page. *)
Lemma extract_data_from_site_result_witness : [phone_record] <> [].
Proof.
  apply (extract_data_from_site_result scripted_web "https://a.example" ["phone"]
           contact_site (Data [phone_record])).
  reflexivity.
Defined.

(** X13.  When three pages in a row give no record and each time the
    service names another URL, [extract_data_from_site] answers
    ["Too many steps needed to extract requested data."] and stops there:
    the URL named last is not fetched. *)
Theorem extract_data_from_site_gives_up {W} (env : WebEnv W) (url : string)
        (fields : list string) (w : W) (url' : string) (w' : W)
        (t : list web_event) :
  moved env fields 0 url w 3 url' w' t ->
  extract_data_from_site env url fields w = (Returns (Message too_many_steps), w', t) /\
  web_count is_fetch t = 3.
Proof.
  intros Hm. split.
  - rewrite (extract_after_moves env fields url w 3 url' w' t Hm)
      by (unfold max_steps; lia).
    change (S max_steps - 3) with 1. rewrite while_no_data_unfold.
    change (max_steps <? 3 + 1) with true. cbv iota.
    rewrite app_nil_r. reflexivity.
  - repeat match goal with
           | H : moved _ _ _ _ _ _ _ _ _ |- _ => inversion H; subst; clear H
           end.
    reflexivity.
Qed.

Lemma ping_pong_moves :
  moved scripted_web ["phone"] 0 "https://a.example" ping_pong 3 "https://b.example"
        (mkWebScript (pages_of ping_pong) [mkParseResult [] "https://a.example"])
        ping_pong_trace.
Proof.
  unfold ping_pong_trace.
  eapply (moved_cons scripted_web ["phone"] 0 "https://a.example" ping_pong
            (html "see b") ping_pong (mkParseResult [] "https://b.example"));
    [reflexivity|reflexivity|reflexivity|discriminate|].
  eapply (moved_cons scripted_web ["phone"] 1 "https://b.example" _
            (html "see a") _ (mkParseResult [] "https://a.example"));
    [reflexivity|reflexivity|reflexivity|discriminate|].
  eapply (moved_cons scripted_web ["phone"] 2 "https://a.example" _
            (html "see b") _ (mkParseResult [] "https://b.example"));
    [reflexivity|reflexivity|reflexivity|discriminate|].
  apply moved_nil.
Defined.

(** An instance: two pages that name each other. *)
Lemma extract_data_from_site_gives_up_witness :
  extract_data_from_site scripted_web "https://a.example" ["phone"] ping_pong =
  (Returns (Message too_many_steps),
   mkWebScript (pages_of ping_pong) [mkParseResult [] "https://a.example"],
   ping_pong_trace) /\
  web_count is_fetch ping_pong_trace = 3.
Proof.
  apply (extract_data_from_site_gives_up scripted_web _ _ _ _ _ _ ping_pong_moves).
Defined.

(** X14.  After fewer than three fruitless pages, a page for which the
    service finds records makes [extract_data_from_site] return exactly those
    records; a page for which it finds none and names the URL of that same
    page makes it answer ["The requested data was not found."].  Either way
    nothing more is fetched. *)
Theorem extract_data_from_site_last_step {W} (env : WebEnv W) (url : string)
        (fields : list string) (w : W) (n : nat) (url' : string) (w1 : W)
        (t : list web_event) (response : Response) (w2 : W)
        (result : ParseResult) (w3 : W) :
  moved env fields 0 url w n url' w1 t ->
  n < 3 ->
  requests_get env url' [] [] w1 = (Done response, w2) ->
  parse_ParseResult env fields (cap_source_code (text_of response)) w2
  = (Done result, w3) ->
  extracted_data result <> [] \/ next_url result = url' ->
  extract_data_from_site env url fields w =
  (Returns (match extracted_data result with
            | [] => Message not_found
            | _ :: _ => Data (extracted_data result)
            end),
   w3,
   t ++ [WebLog (n + 1) url'; RequestsGet url' [] [];
         ParseSite fields (cap_source_code (text_of response))])%list.
Proof.
  intros Hm Hn Hget Hparse Hlast.
  rewrite (extract_after_moves env fields url w n url' w1 t Hm)
    by (unfold max_steps; lia).
  replace (S max_steps - n) with (S (max_steps - n)) by (unfold max_steps; lia).
  rewrite while_no_data_unfold.
  destruct (Nat.ltb_spec max_steps (n + 1)); [unfold max_steps in *; lia|].
  rewrite Hget. cbv zeta. rewrite Hparse.
  destruct (extracted_data result) as [|record records] eqn:Hdata.
  - destruct Hlast as [Hne|Hsame]; [congruence|].
    simpl List.length. change (0 <? 0) with false. cbv iota.
    rewrite Hsame, String.eqb_refl. reflexivity.
  - reflexivity.
Qed.

(** An instance: the record is found on the second page. *)
Lemma extract_data_from_site_last_step_witness :
  extract_data_from_site scripted_web "https://a.example" ["phone"] contact_site =
  (Returns (Data [phone_record]), mkWebScript two_pages [],
   [WebLog 1 "https://a.example"; RequestsGet "https://a.example" [] [];
    ParseSite ["phone"] (code_points "<a href=/contact>Contact</a>");
    WebLog 2 "https://a.example/contact";
    RequestsGet "https://a.example/contact" [] [];
    ParseSite ["phone"] (code_points "<p>Phone: 555 0100</p>")]).
Proof.
  apply (extract_data_from_site_last_step scripted_web "https://a.example" ["phone"]
           contact_site 1 "https://a.example/contact"
           (mkWebScript two_pages [mkParseResult [phone_record] ""])
           [WebLog 1 "https://a.example"; RequestsGet "https://a.example" [] [];
            ParseSite ["phone"] (code_points "<a href=/contact>Contact</a>")]
           (html "<p>Phone: 555 0100</p>")
           (mkWebScript two_pages [mkParseResult [phone_record] ""])
           (mkParseResult [phone_record] "") (mkWebScript two_pages [])).
  - eapply (moved_cons scripted_web ["phone"] 0 "https://a.example" contact_site
              (html "<a href=/contact>Contact</a>") contact_site
              (mkParseResult [] "https://a.example/contact"));
      [reflexivity|reflexivity|reflexivity|discriminate|].
    apply moved_nil.
  - lia.
  - reflexivity.
  - reflexivity.
  - left. discriminate.
Defined.

(** ** [perform_web_search] *)

Lemma append_hits_spec items :
  forall results hits,
    append_hits items results = Returns hits <->
    exists new, hits = (results ++ new)%list /\
                Forall2 (fun item h => make_hit item = Returns h) items new.
Proof.
  induction items as [|item items IH]; intros results hits; simpl.
  - split.
    + intros [= <-]. exists []. rewrite app_nil_r. split; constructor.
    + intros (new & -> & Hall). inversion Hall. rewrite app_nil_r. reflexivity.
  - destruct (make_hit item) as [h|e|] eqn:Hh.
    + rewrite IH. split.
      * intros (new & -> & Hall). exists (h :: new).
        rewrite <- app_assoc. split; [reflexivity|]. constructor; assumption.
      * intros (new & -> & Hall). inversion Hall as [|? h' ? new' Hh' Hrest]; subst.
        assert (h' = h) by congruence. subst h'.
        exists new'. rewrite <- app_assoc. split; [reflexivity|assumption].
    + split; [discriminate|].
      intros (new & _ & Hall). inversion Hall; subst. congruence.
    + split; [discriminate|].
      intros (new & _ & Hall). inversion Hall; subst. congruence.
Qed.

Lemma characters_length s : List.length (characters s) = String.length s.
Proof. induction s as [|c s IH]; simpl; congruence. Qed.

Lemma json_first_five_length v items :
  json_first_five v = Returns items -> List.length items <= 5.
Proof.
  destruct v as [| | |s|items0|]; cbn [json_first_five]; try discriminate;
    intros H.
  - assert (E : characters (slice_to 5 s) = items) by congruence.
    rewrite <- E, characters_length.
    pose proof (slice_to_len s 5) as Hlen. unfold len in Hlen. lia.
  - assert (E : firstn 5 items0 = items) by congruence.
    rewrite <- E. apply firstn_le_length.
Qed.

Lemma perform_web_search_eq {W} (env : WebEnv W) (search_key query : string) (w : W) :
  perform_web_search env search_key query w =
  match requests_get env search_url [("Ocp-Apim-Subscription-Key", search_key)]
                     [("q", query)] w with
  | (Done response, w1) =>
      (search_hits response, w1,
       [RequestsGet search_url [("Ocp-Apim-Subscription-Key", search_key)]
                    [("q", query)]])
  | (Failed name, w1) =>
      (Raises (WebExternal name), w1,
       [RequestsGet search_url [("Ocp-Apim-Subscription-Key", search_key)]
                    [("q", query)]])
  end.
Proof.
  unfold perform_web_search, web_bind, web_call, web_lift.
  destruct (requests_get env search_url _ _ w) as [[response|name] w1]; [|reflexivity].
  destruct (search_hits response); reflexivity.
Qed.

(** X15.  [perform_web_search] returns five entries at most, whatever
    the search service answers. *)
Theorem perform_web_search_returns_at_most_five {W} (env : WebEnv W)
        (search_key query : string) (w : W) (hits : list hit) :
  fst (fst (perform_web_search env search_key query w)) = Returns hits ->
  List.length hits <= 5.
Proof.
  rewrite perform_web_search_eq.
  destruct (requests_get env search_url _ _ w) as [[response|name] w1];
    [|discriminate].
  cbn [fst]. unfold search_hits.
  destruct (raise_for_status response); try discriminate.
  destruct (response_json response) as [sr|e|]; try discriminate.
  destruct (json_getitem sr "webPages") as [wp|e|]; try discriminate.
  destruct (json_getitem wp "value") as [value|e|]; try discriminate.
  destruct (json_first_five value) as [items|e|] eqn:Hfive; try discriminate.
  intros Hhits. apply append_hits_spec in Hhits.
  destruct Hhits as (new & -> & Hall).
  apply Forall2_length in Hall. apply json_first_five_length in Hfive.
  simpl. lia.
Qed.

(** An instance: six results on offer, the sixth of them not even an
    object. *)
Lemma perform_web_search_returns_at_most_five_witness : List.length five_hits <= 5.
Proof.
  apply (perform_web_search_returns_at_most_five scripted_web "key" "rocq"
           (bing_web (bing_response six_results))).
  reflexivity.
Defined.

(** X16.  For a response with a good status whose JSON has a list under
    [webPages.value], [perform_web_search] returns one entry for each of the
    first five items, in their order, and only looks at those: it returns
    [hits] exactly when each of the first five items yields the entry at the
    same place.  Items after the fifth play no part, well-formed or not. *)
Theorem perform_web_search_takes_the_first_five {W} (env : WebEnv W)
        (search_key query : string) (w : W) (response : Response) (w1 : W)
        (search_results web_pages : json) (items : list json) :
  requests_get env search_url [("Ocp-Apim-Subscription-Key", search_key)]
               [("q", query)] w = (Done response, w1) ->
  raise_for_status response = Returns tt ->
  json_of response = Some search_results ->
  json_getitem search_results "webPages" = Returns web_pages ->
  json_getitem web_pages "value" = Returns (JArray items) ->
  forall hits,
    fst (fst (perform_web_search env search_key query w)) = Returns hits <->
    Forall2 (fun item h => make_hit item = Returns h) (firstn 5 items) hits.
Proof.
  intros Hget Hstatus Hjson Hpages Hvalue hits.
  rewrite perform_web_search_eq, Hget. cbn [fst].
  unfold search_hits, response_json.
  rewrite Hstatus, Hjson, Hpages, Hvalue. cbn [json_first_five].
  rewrite append_hits_spec. split.
  - intros (new & -> & Hall). exact Hall.
  - intros Hall. exists hits. split; [reflexivity|exact Hall].
Qed.

(** An instance: the five entries of [six_results]. *)
Lemma perform_web_search_takes_the_first_five_witness :
  fst (fst (perform_web_search scripted_web "key" "rocq"
              (bing_web (bing_response six_results)))) = Returns five_hits <->
  Forall2 (fun item h => make_hit item = Returns h) (firstn 5 six_results) five_hits.
Proof.
  apply (perform_web_search_takes_the_first_five scripted_web "key" "rocq"
           (bing_web (bing_response six_results)) (bing_response six_results)
           (bing_web (bing_response six_results))
           (JObject [("webPages", JObject [("value", JArray six_results)])])
           (JObject [("value", JArray six_results)]) six_results);
    reflexivity.
Defined.

(** X17.  What stops [perform_web_search] before it reads any result: a
    status from 400 to 599 raises [HTTPError] whatever the body holds; with a
    good status, a body that is not JSON raises [JSONDecodeError], and a JSON
    object without ["webPages"] (an answer with no web results) raises
    [KeyError("webPages")] instead of returning an empty list. *)
Theorem perform_web_search_early_errors {W} (env : WebEnv W)
        (search_key query : string) (w : W) (response : Response) (w1 : W) :
  requests_get env search_url [("Ocp-Apim-Subscription-Key", search_key)]
               [("q", query)] w = (Done response, w1) ->
  let outcome_of := fst (fst (perform_web_search env search_key query w)) in
  ((400 <= status_code response < 600)%Z ->
   outcome_of = Raises (HTTPError (status_code response))) /\
  ((status_code response < 400 \/ 600 <= status_code response)%Z ->
   (json_of response = None -> outcome_of = Raises JSONDecodeError) /\
   (forall members,
      json_of response = Some (JObject members) ->
      members_get "webPages" members = None ->
      outcome_of = Raises (KeyError "webPages"))).
Proof.
  intros Hget outcome_of. subst outcome_of.
  rewrite perform_web_search_eq, Hget. cbn [fst].
  unfold search_hits, raise_for_status, response_json. split.
  - intros Hs.
    destruct (Z.leb_spec 400 (status_code response)); [|lia].
    destruct (Z.ltb_spec (status_code response) 600); [|lia].
    reflexivity.
  - intros Hs.
    assert (E : ((400 <=? status_code response) && (status_code response <? 600))%Z
                = false).
    { destruct (Z.leb_spec 400 (status_code response));
        destruct (Z.ltb_spec (status_code response) 600); simpl; auto; lia. }
    rewrite E. split.
    + intros ->. reflexivity.
    + intros members -> Hnone. unfold json_getitem. rewrite Hnone. reflexivity.
Qed.

(** Instances: a key that is refused, and an answer without web results. *)
Lemma perform_web_search_early_errors_witness :
  fst (fst (perform_web_search scripted_web "key" "rocq" (bing_web unauthorized)))
  = Raises (HTTPError 401) /\
  fst (fst (perform_web_search scripted_web "key" "rocq" (bing_web no_web_results)))
  = Raises (KeyError "webPages").
Proof.
  split.
  - apply (proj1 (perform_web_search_early_errors scripted_web "key" "rocq"
                    (bing_web unauthorized) unauthorized (bing_web unauthorized)
                    eq_refl)).
    simpl. lia.
  - refine (proj2 (proj2 (perform_web_search_early_errors scripted_web "key" "rocq"
                            (bing_web no_web_results) no_web_results
                            (bing_web no_web_results) eq_refl) _)
                  [("_type", JString "SearchResponse")] eq_refl eq_refl).
    simpl. lia.
Defined.

(** X18.  One search result becomes an entry when it is an object with
    ["name"], ["url"] and ["snippet"], whatever their values; a missing
    ["deepLinks"] gives the empty list, not an error, while the first of the
    three other keys that is missing raises [KeyError] of that key, and a
    result that is no object raises [TypeError]. *)
Theorem make_hit_by_keys (result : json) :
  match result with
  | JObject members =>
      match members_get "name" members, members_get "url" members,
            members_get "snippet" members with
      | Some n, Some u, Some s =>
          make_hit result =
          Returns (mkHit n u s match members_get "deepLinks" members with
                               | Some links => links
                               | None => JArray []
                               end)
      | None, _, _ => make_hit result = Raises (KeyError "name")
      | Some _, None, _ => make_hit result = Raises (KeyError "url")
      | Some _, Some _, None => make_hit result = Raises (KeyError "snippet")
      end
  | _ => make_hit result = Raises TypeError
  end.
Proof.
  destruct result as [| | | | |members]; try reflexivity.
  unfold make_hit, json_getitem, json_get.
  destruct (members_get "name" members); [|reflexivity].
  destruct (members_get "url" members); [|reflexivity].
  destruct (members_get "snippet" members); [|reflexivity].
  destruct (members_get "deepLinks" members); reflexivity.
Qed.

(** ** After a [NONE] decision *)

Lemma after_none_decision_app t1 t2 :
  count is_log t1 = 0 ->
  after_none_decision (t1 ++ t2) = after_none_decision t2.
Proof.
  induction t1 as [|ev t1 IH]; [reflexivity|].
  rewrite count_cons. destruct ev; simpl; intros H; try discriminate; auto.
Qed.

Section AfterNone.

Context {W : Type} (env : Env W).

Lemma get_web_action_logs_nothing d w r w' t :
  get_web_action env d w = (r, w', t) -> count is_log t = 0.
Proof.
  unfold get_web_action, capture_current_page. run_plugin;
    intros H; inversion H; subst; reflexivity.
Qed.

Lemma execute_logs_nothing a w r w' t :
  execute_web_action env a w = (r, w', t) -> count is_log t = 0.
Proof.
  unfold execute_web_action.
  destruct (action a) as [[]|]; simpl; run_plugin;
    intros H; inversion H; subst; reflexivity.
Qed.

Lemma tick_after_none d w r w1 t1 :
  tick env d w = (r, w1, t1) ->
  (exists a m, r = Ok (a, m) /\ action_is (action a) NONE = true /\
               after_none_decision t1 = []) \/
  ((forall a m, r = Ok (a, m) -> action_is (action a) NONE = false) /\
   forall rest, after_none_decision (t1 ++ rest) = after_none_decision rest).
Proof.
  rewrite tick_eq.
  destruct (get_web_action env d (time_sleep env 200 w)) as [[rg wg] tg] eqn:G.
  pose proof (get_web_action_logs_nothing _ _ _ _ _ G) as Hg.
  destruct rg as [a|e|].
  - destruct (action_is (action a) NONE) eqn:Ha.
    + rewrite (execute_none env a wg Ha). intros [= <- <- <-].
      left. exists a, (termination_message a). split; [reflexivity|].
      split; [exact Ha|].
      cbn [after_none_decision]. rewrite after_none_decision_app by exact Hg.
      cbn [after_none_decision]. rewrite Ha. reflexivity.
    + destruct (execute_web_action env a wg) as [[re we] te] eqn:E.
      pose proof (execute_logs_nothing _ _ _ _ _ E) as He.
      assert (Hrest : forall rest,
                 after_none_decision
                   ((EvSleep 200 :: tg ++ EvLog (Performing a) :: te) ++ rest)
                 = after_none_decision rest).
      { intros rest. cbn [app after_none_decision].
        rewrite <- app_assoc, after_none_decision_app by exact Hg.
        cbn [app after_none_decision]. rewrite Ha.
        apply after_none_decision_app. exact He. }
      destruct re as [m|e|]; intros [= <- <- <-]; right;
        (split; [|exact Hrest]); try discriminate.
      intros a' m' [= <- <-]. exact Ha.
  - intros [= <- <- <-]. right. split; [discriminate|].
    intros rest. cbn [app after_none_decision].
    apply after_none_decision_app. exact Hg.
  - intros [= <- <- <-]. right. split; [discriminate|].
    intros rest. cbn [app after_none_decision].
    apply after_none_decision_app. exact Hg.
Qed.

Lemma while_not_done_after_none d fuel :
  forall ca w r w' t,
    while_not_done env fuel d ca w = (r, w', t) -> after_none_decision t = [].
Proof.
  induction fuel as [|fuel IH]; intros ca w r w' t.
  - simpl. unfold lift. intros [= <- <- <-]. reflexivity.
  - rewrite while_not_done_unfold.
    destruct (max_attempts <? ca + 1); [intros [= <- <- <-]; reflexivity|].
    destruct (tick env d w) as [[rt w1] t1] eqn:Ht.
    destruct (tick_after_none _ _ _ _ _ Ht)
      as [(a & m & -> & Ha & Hnil)|[Hnot Hrest]].
    + rewrite Ha. intros [= <- <- <-]. exact Hnil.
    + destruct rt as [[a m]|e|].
      * rewrite (Hnot a m eq_refl).
        destruct (while_not_done env fuel d (ca + 1) w1) as [[r2 w2] t2] eqn:Hrec.
        intros [= <- <- <-]. rewrite Hrest. exact (IH _ _ _ _ _ Hrec).
      * intros [= <- <- <-]. rewrite <- (app_nil_r t1), Hrest. reflexivity.
      * intros [= <- <- <-]. rewrite <- (app_nil_r t1), Hrest. reflexivity.
Qed.

End AfterNone.

(** X19.  A [NONE] decision is the last thing that happens in a run of
    [perform_web_action]: once it is logged there is no further pause,
    capture, service call, click or key, whatever the environment does. *)
Theorem nothing_happens_after_a_none_decision {W} (env : Env W) (d : string) (w : W) :
  after_none_decision (snd (perform_web_action env d w)) = [].
Proof.
  unfold perform_web_action.
  destruct (while_not_done env (S max_attempts) d 0 w) as [[r w'] t] eqn:Hrun.
  exact (while_not_done_after_none env d _ _ _ _ _ _ Hrun).
Qed.

(** ** The descriptor lists, position by position *)






(** ** The run on fifteen decisions *)



Section Fifteen.

Context {W : Type} (env : Env W).



End Fifteen.






(** ** The image of a decision call *)

Lemma no_decision_call_after_capture {W} (env : Env W) (d : string) (t : list event) :
  count is_decision_call t = 0 -> Forall (decision_call_after_capture env d) t.
Proof.
  induction t as [|ev t IH]; [constructor|].
  rewrite count_cons.
  destruct ev; simpl; intros H; try discriminate; constructor; simpl; auto.
Qed.

Section Image.

Context {W : Type} (env : Env W).

(** [get_web_action], reply by reply. *)
Lemma get_web_action_eq d w :
  get_web_action env d w =
  match driver_find_element env "body" w with
  | (Failed name, w1) => (Raise (External name), w1, [EvFindElement "body"])
  | (Done body, w1) =>
      match screenshot_as_base64 env body w1 with
      | (Failed name, w2) =>
          (Raise (External name), w2, [EvFindElement "body"; EvScreenshot body])
      | (Done screenshot_b64, w2) =>
          let image_url := ("data:image/png;base64," ++ screenshot_b64)%string in
          match parse_WebAction env d image_url w2 with
          | (Done a, w3) =>
              (Ok a, w3,
               [EvFindElement "body"; EvScreenshot body; EvParseAction d image_url])
          | (Failed name, w3) =>
              (Raise (External name), w3,
               [EvFindElement "body"; EvScreenshot body; EvParseAction d image_url])
          end
      end
  end.
Proof.
  unfold get_web_action, capture_current_page, bind, call, ret.
  destruct (driver_find_element env "body" w) as [[body|name] w1]; [|reflexivity].
  destruct (screenshot_as_base64 env body w1) as [[shot|name] w2]; [|reflexivity].
  cbv zeta.
  destruct (parse_WebAction env d ("data:image/png;base64," ++ shot) w2)
    as [[a|name] w3]; reflexivity.
Qed.

Lemma get_web_action_image d w r w' t :
  get_web_action env d w = (r, w', t) ->
  Forall (decision_call_after_capture env d) t.
Proof.
  rewrite get_web_action_eq.
  destruct (driver_find_element env "body" w) as [[body|name] w1] eqn:Hbody.
  2:{ intros [= <- <- <-]. repeat constructor. }
  destruct (screenshot_as_base64 env body w1) as [[shot|name] w2] eqn:Hshot.
  2:{ intros [= <- <- <-]. repeat constructor. }
  cbv zeta.
  assert (Hcall : decision_call_after_capture env d
                    (EvParseAction d ("data:image/png;base64," ++ shot)%string)).
  { split; [reflexivity|]. exists w, body, w1, shot, w2. auto. }
  destruct (parse_WebAction env d ("data:image/png;base64," ++ shot) w2)
    as [[a|name] w3]; intros [= <- <- <-];
    (constructor; [exact I|]); (constructor; [exact I|]);
    (constructor; [exact Hcall|constructor]).
Qed.

Lemma tick_image d w r w' t :
  tick env d w = (r, w', t) -> Forall (decision_call_after_capture env d) t.
Proof.
  rewrite tick_eq.
  destruct (get_web_action env d (time_sleep env 200 w)) as [[rg wg] tg] eqn:G.
  pose proof (get_web_action_image _ _ _ _ _ G) as Hg.
  destruct rg as [a|e|].
  - destruct (execute_web_action env a wg) as [[re we] te] eqn:E.
    destruct (execute_trace env _ _ _ _ _ E) as (_ & _ & Hd & _).
    pose proof (no_decision_call_after_capture env d te Hd) as He.
    assert (Hall : Forall (decision_call_after_capture env d)
                          (EvSleep 200 :: tg ++ EvLog (Performing a) :: te)).
    { constructor; [exact I|]. apply Forall_app_intro; [exact Hg|].
      constructor; [exact I|exact He]. }
    destruct re; intros [= <- <- <-]; exact Hall.
  - intros [= <- <- <-]. constructor; [exact I|exact Hg].
  - intros [= <- <- <-]. constructor; [exact I|exact Hg].
Qed.

Lemma while_not_done_image d fuel :
  forall ca w r w' t,
    while_not_done env fuel d ca w = (r, w', t) ->
    Forall (decision_call_after_capture env d) t.
Proof.
  induction fuel as [|fuel IH]; intros ca w r w' t.
  - simpl. unfold lift. intros [= <- <- <-]. constructor.
  - rewrite while_not_done_unfold.
    destruct (max_attempts <? ca + 1); [intros [= <- <- <-]; constructor|].
    destruct (tick env d w) as [[rt w1] t1] eqn:Ht.
    pose proof (tick_image _ _ _ _ _ Ht) as H1.
    destruct rt as [[a m]|e|]; try (intros [= <- <- <-]; exact H1).
    destruct (action_is (action a) NONE); [intros [= <- <- <-]; exact H1|].
    destruct (while_not_done env fuel d (ca + 1) w1) as [[r2 w2] t2] eqn:Hrec.
    intros [= <- <- <-]. apply Forall_app_intro; [exact H1|exact (IH _ _ _ _ _ Hrec)].
Qed.

End Image.

(** X2.  [get_web_action] finds the body element, takes its screenshot in
    the world that leaves, and calls the decision service, in the world the
    screenshot leaves, with the objective and with the image URL
    ["data:image/png;base64,"] followed by that very screenshot.  Along a run
    of [perform_web_action], every decision call carries the objective that
    the function was given, unchanged, and the data URL of a screenshot that
    the driver gave for the body element it had just found. *)
Theorem decision_calls_carry_the_objective {W} (env : Env W) (d : string) (w : W) :
  get_web_action env d w =
  match driver_find_element env "body" w with
  | (Failed name, w1) => (Raise (External name), w1, [EvFindElement "body"])
  | (Done body, w1) =>
      match screenshot_as_base64 env body w1 with
      | (Failed name, w2) =>
          (Raise (External name), w2, [EvFindElement "body"; EvScreenshot body])
      | (Done screenshot_b64, w2) =>
          let image_url := ("data:image/png;base64," ++ screenshot_b64)%string in
          match parse_WebAction env d image_url w2 with
          | (Done a, w3) =>
              (Ok a, w3,
               [EvFindElement "body"; EvScreenshot body; EvParseAction d image_url])
          | (Failed name, w3) =>
              (Raise (External name), w3,
               [EvFindElement "body"; EvScreenshot body; EvParseAction d image_url])
          end
      end
  end /\
  Forall (decision_call_after_capture env d) (snd (perform_web_action env d w)).
Proof.
  split; [apply get_web_action_eq|].
  unfold perform_web_action.
  destruct (while_not_done env (S max_attempts) d 0 w) as [[r w'] t] eqn:Hrun.
  exact (while_not_done_image env d _ _ _ _ _ _ Hrun).
Qed.
